(** * RavEngine: the shared vertex/index buffer suballocator

    A shallow embedding of [src/src/RenderEngine_Allocate.cpp]
    ([RenderEngine::AllocateMesh], [RenderEngine::DeallocateMesh],
    [RenderEngine::ReallocateVertexAllocationToSize] and
    [RenderEngine::ReallocateIndexAllocationToSize]) and the properties of the
    design document checked against it.

    Conventions of the embedding:
    - a [uint32_t] is a [Z] in [0, 2^32); every arithmetic operation of the
      source on such values is written with its wrap-around ([U32.add],
      [U32.sub]); [-1] converted to [uint32_t] is [U32.minus_one];
    - a [std::vector] is a [list]; [operator[]] out of range is undefined
      behaviour, [at] out of range throws [std::out_of_range];
    - the member functions thread the engine state explicitly; calls into the
      graphics layer are appended to a log kept in the state;
    - the coarse [allocationLock] serialises the calls and is not modelled;
    - loops whose counter is a [uint32_t] compared against a [size_t] take a
      [fuel] bound on their number of iterations. *)

From Stdlib Require Import ZArith List Bool Lia Permutation.
From Stdlib Require String.
Import ListNotations.
Open Scope Z_scope.

(** ** Machine integers *)

Module U32.

Definition modulus : Z := 4294967296.

Definition wrap (z : Z) : Z := z mod modulus.

(** The value of [-1] converted to [uint32_t]. *)
Definition minus_one : Z := 4294967295.

Definition add (a b : Z) : Z := wrap (a + b).

Definition sub (a b : Z) : Z := wrap (a - b).

(** Conversion of a [uint32_t] to [bool]. *)
Definition to_bool (a : Z) : bool := negb (a =? 0).

End U32.

(** ** Vectors *)

Module Vec.

Section Ops.

Context {A : Type}.

Definition size (v : list A) : Z := Z.of_nat (length v).

(** The element at index [i], when [i] is in range. *)
Fixpoint get (v : list A) (i : Z) : option A :=
  match v with
  | [] => None
  | x :: rest => if i =? 0 then Some x else get rest (i - 1)
  end.

(** Assignment through a reference to the element at index [i]. *)
Fixpoint put (v : list A) (i : Z) (x : A) : list A :=
  match v with
  | [] => []
  | y :: rest => if i =? 0 then x :: rest else y :: put rest (i - 1) x
  end.

(** [v.erase(v.begin() + i)]. *)
Fixpoint erase (v : list A) (i : Z) : list A :=
  match v with
  | [] => []
  | y :: rest => if i =? 0 then rest else y :: erase rest (i - 1)
  end.

Definition push_back (v : list A) (x : A) : list A := v ++ [x].

(** The addresses of the elements, in order: what a loop over [v] that
    pushes [&element] collects. *)
Definition pointers (v : list A) : list Z :=
  map Z.of_nat (seq 0 (length v)).

End Ops.

End Vec.

(** ** Outcomes of a call *)

Inductive fault : Type :=
| OutOfBoundsRead        (* operator[] with an index that is not below size() *)
| InvalidatedReference   (* use of a reference after the erase that invalidated it *)
| WildPointer            (* dereference of a pointer to no element *)
| NullDereference.       (* call through a null buffer pointer *)

Inductive outcome (A : Type) : Type :=
| Returns (a : A)
| Throws_out_of_range            (* std::out_of_range from vector::at *)
| Undefined (f : fault)
| OutOfFuel.

Arguments Returns {A} a.
Arguments Throws_out_of_range {A}.
Arguments Undefined {A} f.
Arguments OutOfFuel {A}.

(** ** Data model *)

Record Range : Type := mkRange { start : Z; count : Z }.

Record MeshRange : Type := mkMeshRange { vertRange : Range; indexRange : Range }.

Definition allocation_freelist_t : Type := list Range.
Definition allocation_allocatedlist_t : Type := list Range.

(** ** [AllocateMesh]: the free-space search *)

(** The loop of [findPlacement]. [bestRangeIndex] is only assigned on the
    iteration that leaves the loop, so every test reads the free list at the
    index the search started with. *)
Fixpoint findPlacement_loop (fuel : nat) (requestedSize : Z)
    (freeList : allocation_freelist_t) (bestRangeIndex i : Z) : outcome Z :=
  if i <? Vec.size freeList then
    match fuel with
    | O => OutOfFuel
    | S fuel' =>
        match Vec.get freeList bestRangeIndex with
        | None => Undefined OutOfBoundsRead
        | Some best =>
            if requestedSize <=? count best then Returns i
            else findPlacement_loop fuel' requestedSize freeList bestRangeIndex
                   (U32.add i 1)
        end
    end
  else Returns bestRangeIndex.

Definition findPlacement (fuel : nat) (requestedSize : Z)
    (freeList : allocation_freelist_t) : outcome Z :=
  findPlacement_loop fuel requestedSize freeList U32.minus_one 0.

(** ** [AllocateMesh]: taking a range out of the free list *)

(** The result is the returned [Range] with the free list and the allocated
    list as the call leaves them. In the exact-fit branch the element is
    erased while [rangeToUpdate] still refers to it; the [push_back] and the
    [return] that follow read through that reference. *)
Definition consumeRange (allocation allocatedSize : Z)
    (freeList : allocation_freelist_t) (allocatedList : allocation_allocatedlist_t)
    : outcome (Range * allocation_freelist_t * allocation_allocatedlist_t) :=
  match Vec.get freeList allocation with
  | None => Throws_out_of_range
  | Some rangeToUpdate =>
      if count rangeToUpdate =? allocatedSize then
        Undefined InvalidatedReference
      else
        let rangeToUpdate' :=
          mkRange (U32.add (start rangeToUpdate) allocatedSize) (count rangeToUpdate) in
        let freeList' := Vec.put freeList allocation rangeToUpdate' in
        Returns (rangeToUpdate', freeList', Vec.push_back allocatedList rangeToUpdate')
  end.

(** ** [DeallocateMesh] *)

(** The search loop of [deallocateData]: the counter starts at the value it
    is given and the test of the [for] compares it with the size of the
    list. It yields the found range and the allocated list after the erase,
    or [foundRange] and the list untouched when the loop ends without a
    match. *)
Fixpoint deallocateData_search (fuel : nat) (range : Range)
    (allocatedList : allocation_allocatedlist_t) (foundRangeIndex : Z)
    (foundRange : Range) : outcome (Range * allocation_allocatedlist_t) :=
  if foundRangeIndex <? Vec.size allocatedList then
    match fuel with
    | O => OutOfFuel
    | S fuel' =>
        match Vec.get allocatedList foundRangeIndex with
        | None => Undefined OutOfBoundsRead
        | Some nextRange =>
            if (start range <=? start nextRange) && (count range <=? count nextRange)
            then Returns (nextRange, Vec.erase allocatedList foundRangeIndex)
            else deallocateData_search fuel' range allocatedList
                   (U32.add foundRangeIndex 1) foundRange
        end
    end
  else Returns (foundRange, allocatedList).

(** One iteration of the loop over the free list: both tests are made on
    every entry, the second one on the entry as the first one left it. *)
Definition deallocateData_border (foundRange range : Range) (overlapFound : bool)
    : Range * bool :=
  let '(range, overlapFound) :=
    if U32.add (start range) (count range) =? start foundRange
    then (mkRange (start range) (U32.add (count range) (count foundRange)), true)
    else (range, overlapFound) in
  if U32.add (start foundRange) (count foundRange) =? start range
  then (mkRange (U32.sub (start range) (count foundRange)) (count range), true)
  else (range, overlapFound).

Fixpoint deallocateData_merge (foundRange : Range) (freeList : allocation_freelist_t)
    (overlapFound : bool) : allocation_freelist_t * bool :=
  match freeList with
  | [] => ([], overlapFound)
  | range :: rest =>
      let '(range', overlapFound') := deallocateData_border foundRange range overlapFound in
      let '(rest', overlapFound'') := deallocateData_merge foundRange rest overlapFound' in
      (range' :: rest', overlapFound'')
  end.

(** [Range_default] is the value of the local [Range foundRange;] before any
    assignment: [struct Range] is declared in [RenderEngine.hpp]. *)
Definition deallocateData (fuel : nat) (Range_default : Range) (range : Range)
    (allocatedList : allocation_allocatedlist_t) (freeList : allocation_freelist_t)
    : outcome (allocation_allocatedlist_t * allocation_freelist_t) :=
  match deallocateData_search fuel range allocatedList U32.minus_one Range_default with
  | Returns (foundRange, allocatedList') =>
      let '(freeList', overlapFound) := deallocateData_merge foundRange freeList false in
      Returns (allocatedList',
               if overlapFound then freeList' else Vec.push_back freeList' range)
  | Throws_out_of_range => Throws_out_of_range
  | Undefined f => Undefined f
  | OutOfFuel => OutOfFuel
  end.

(** ** The engine state and the graphics layer *)

Inductive BufferType : Type := VertexBuffer | IndexBuffer.

Inductive BufferAccess : Type := Private | Shared.

(** The argument of [device->CreateBuffer]. *)
Record BufferConfig : Type := mkBufferConfig {
  nbytes : Z;
  type : BufferType;
  stride : Z;
  access : BufferAccess
}.

(** A created buffer: its configuration, and the position of its creation in
    the log of the device, which tells two buffers apart. *)
Record RGLBuffer : Type := mkBuffer { buffer_id : nat; buffer_config : BufferConfig }.

(** A shared pointer to a buffer; [None] is the null pointer. *)
Definition RGLBufferPtr : Type := option RGLBuffer.

(** The calls the allocator makes on the device, the command queue, the
    command buffer, the fence and the buffers, in the order it makes them. *)
Inductive DeviceCall : Type :=
| CreateBuffer (config : BufferConfig)
| UpdateBufferData (buffer : RGLBuffer) (data : list Byte.byte) (offset : Z)
| CreateCommandBuffer
| CreateFence
| CommandBuffer_Begin
| CommandBuffer_End
| CommandBuffer_Commit
| Fence_Wait.

Record RenderEngine : Type := mkRenderEngine {
  sharedVertexBuffer : RGLBufferPtr;
  sharedIndexBuffer : RGLBufferPtr;
  currentVertexSize : Z;
  currentIndexSize : Z;
  vertexFreeList : allocation_freelist_t;
  indexFreeList : allocation_freelist_t;
  vertexAllocatedList : allocation_allocatedlist_t;
  indexAllocatedList : allocation_allocatedlist_t;
  gcBuffers : list RGLBufferPtr;
  deviceLog : list DeviceCall
}.

Definition set_sharedVertexBuffer (b : RGLBufferPtr) (st : RenderEngine) : RenderEngine :=
  mkRenderEngine b (sharedIndexBuffer st) (currentVertexSize st) (currentIndexSize st)
    (vertexFreeList st) (indexFreeList st) (vertexAllocatedList st)
    (indexAllocatedList st) (gcBuffers st) (deviceLog st).

Definition set_sharedIndexBuffer (b : RGLBufferPtr) (st : RenderEngine) : RenderEngine :=
  mkRenderEngine (sharedVertexBuffer st) b (currentVertexSize st) (currentIndexSize st)
    (vertexFreeList st) (indexFreeList st) (vertexAllocatedList st)
    (indexAllocatedList st) (gcBuffers st) (deviceLog st).

Definition set_currentVertexSize (n : Z) (st : RenderEngine) : RenderEngine :=
  mkRenderEngine (sharedVertexBuffer st) (sharedIndexBuffer st) n (currentIndexSize st)
    (vertexFreeList st) (indexFreeList st) (vertexAllocatedList st)
    (indexAllocatedList st) (gcBuffers st) (deviceLog st).

Definition set_currentIndexSize (n : Z) (st : RenderEngine) : RenderEngine :=
  mkRenderEngine (sharedVertexBuffer st) (sharedIndexBuffer st) (currentVertexSize st) n
    (vertexFreeList st) (indexFreeList st) (vertexAllocatedList st)
    (indexAllocatedList st) (gcBuffers st) (deviceLog st).

Definition set_vertexFreeList (l : allocation_freelist_t) (st : RenderEngine) : RenderEngine :=
  mkRenderEngine (sharedVertexBuffer st) (sharedIndexBuffer st) (currentVertexSize st)
    (currentIndexSize st) l (indexFreeList st) (vertexAllocatedList st)
    (indexAllocatedList st) (gcBuffers st) (deviceLog st).

Definition set_indexFreeList (l : allocation_freelist_t) (st : RenderEngine) : RenderEngine :=
  mkRenderEngine (sharedVertexBuffer st) (sharedIndexBuffer st) (currentVertexSize st)
    (currentIndexSize st) (vertexFreeList st) l (vertexAllocatedList st)
    (indexAllocatedList st) (gcBuffers st) (deviceLog st).

Definition set_vertexAllocatedList (l : allocation_allocatedlist_t) (st : RenderEngine)
    : RenderEngine :=
  mkRenderEngine (sharedVertexBuffer st) (sharedIndexBuffer st) (currentVertexSize st)
    (currentIndexSize st) (vertexFreeList st) (indexFreeList st) l
    (indexAllocatedList st) (gcBuffers st) (deviceLog st).

Definition set_indexAllocatedList (l : allocation_allocatedlist_t) (st : RenderEngine)
    : RenderEngine :=
  mkRenderEngine (sharedVertexBuffer st) (sharedIndexBuffer st) (currentVertexSize st)
    (currentIndexSize st) (vertexFreeList st) (indexFreeList st) (vertexAllocatedList st)
    l (gcBuffers st) (deviceLog st).

Definition set_gcBuffers (q : list RGLBufferPtr) (st : RenderEngine) : RenderEngine :=
  mkRenderEngine (sharedVertexBuffer st) (sharedIndexBuffer st) (currentVertexSize st)
    (currentIndexSize st) (vertexFreeList st) (indexFreeList st) (vertexAllocatedList st)
    (indexAllocatedList st) q (deviceLog st).

Definition set_deviceLog (l : list DeviceCall) (st : RenderEngine) : RenderEngine :=
  mkRenderEngine (sharedVertexBuffer st) (sharedIndexBuffer st) (currentVertexSize st)
    (currentIndexSize st) (vertexFreeList st) (indexFreeList st) (vertexAllocatedList st)
    (indexAllocatedList st) (gcBuffers st) l.

(** ** Member functions: state and failure *)

(** How a member function ends: it returns a value in a new state, it leaves
    by the exception of [vector::at] in the state reached so far, it runs into
    undefined behaviour, or the bound on loop iterations is used up. *)
Inductive run (A : Type) : Type :=
| Done (a : A) (st : RenderEngine)
| Raised_out_of_range (st : RenderEngine)
| Fault (f : fault)
| Timeout.

Arguments Done {A} a st.
Arguments Raised_out_of_range {A} st.
Arguments Fault {A} f.
Arguments Timeout {A}.

Definition M (A : Type) : Type := RenderEngine -> run A.

Definition ret {A : Type} (a : A) : M A := fun st => Done a st.

Definition bind {A B : Type} (m : M A) (k : A -> M B) : M B :=
  fun st =>
    match m st with
    | Done a st' => k a st'
    | Raised_out_of_range st' => Raised_out_of_range st'
    | Fault f => Fault f
    | Timeout => Timeout
    end.

Declare Scope engine_scope.
Delimit Scope engine_scope with engine.

Notation "x <- m ;; k" := (bind m (fun x => k))
  (at level 61, m at next level, right associativity) : engine_scope.
Notation "m ;; k" := (bind m (fun _ => k))
  (at level 61, right associativity) : engine_scope.

Open Scope engine_scope.

(** Run a lambda that works on vectors passed by reference. *)
Definition lift {A : Type} (o : outcome A) : M A :=
  fun st =>
    match o with
    | Returns a => Done a st
    | Throws_out_of_range => Raised_out_of_range st
    | Undefined f => Fault f
    | OutOfFuel => Timeout
    end.

Definition gets {A : Type} (field : RenderEngine -> A) : M A :=
  fun st => Done (field st) st.

Definition modify (f : RenderEngine -> RenderEngine) : M unit :=
  fun st => Done tt (f st).

Definition timeout {A : Type} : M A := fun _ => Timeout.

(** A call into the graphics layer. *)
Definition call (c : DeviceCall) : M unit :=
  modify (fun st => set_deviceLog (deviceLog st ++ [c]) st).

Definition device_CreateBuffer (config : BufferConfig) : M RGLBufferPtr :=
  fun st =>
    Done (Some (mkBuffer (length (deviceLog st)) config))
         (set_deviceLog (deviceLog st ++ [CreateBuffer config]) st).

(** [buffer->UpdateBufferData({data, size}, offset)]. *)
Definition buffer_UpdateBufferData (buffer : RGLBufferPtr) (data : list Byte.byte)
    (offset : Z) : M unit :=
  match buffer with
  | None => fun _ => Fault NullDereference
  | Some b => call (UpdateBufferData b data offset)
  end.

(** ** Growth *)

(** The comparator handed to [std::sort]: the difference of the two starts,
    converted to [bool]. *)
Definition sort_comparator (a b : Range) : bool :=
  U32.to_bool (U32.sub (start b) (start a)).

(** The comparator on the elements of [sortList], which are pointers into the
    allocated list. *)
Definition sort_comparator_ptr (allocatedList : allocation_allocatedlist_t) (a b : Z) : bool :=
  match Vec.get allocatedList a, Vec.get allocatedList b with
  | Some ra, Some rb => sort_comparator ra rb
  | _, _ => false
  end.

(** The loop that fills holes: every visited range is moved to the running
    offset. The source computes [oldstart] and issues no command with it. *)
Fixpoint compact (sortList : list Z) (offset : Z)
    (allocatedList : allocation_allocatedlist_t) : outcome allocation_allocatedlist_t :=
  match sortList with
  | [] => Returns allocatedList
  | ptr :: rest =>
      match Vec.get allocatedList ptr with
      | None => Undefined WildPointer
      | Some r =>
          let oldstart := start r in
          compact rest (U32.add offset (count r))
            (Vec.put allocatedList ptr (mkRange offset (count r)))
      end
  end.

(** A sort by insertion, one of the orders [std::sort] can leave. *)
Fixpoint insert_sorted (cmp : Z -> Z -> bool) (x : Z) (l : list Z) : list Z :=
  match l with
  | [] => [x]
  | y :: rest => if cmp y x then y :: insert_sorted cmp x rest else x :: l
  end.

Definition insertion_sort (cmp : Z -> Z -> bool) (l : list Z) : list Z :=
  fold_right (insert_sorted cmp) [] l.

(** The engine before the first allocation: empty lists, buffers of
    capacity zero. *)
Definition initial_engine : RenderEngine :=
  mkRenderEngine None None 0 0 [] [] [] [] [] [].

Section Engine.

(** [sizeof(VertexNormalUV)]; the vertex type is declared outside the
    allocator. *)
Variable sizeof_VertexNormalUV : Z.

(** The order in which [std::sort] leaves the pointers. [sort_comparator] is
    true in both directions whenever two starts differ, so it is no strict
    weak ordering and the library promises no particular order. *)
Variable std_sort : (Z -> Z -> bool) -> list Z -> list Z.

(** The value of a default-initialised [Range]. *)
Variable Range_default : Range.

Definition ReallocateVertexAllocationToSize (newSize : Z) : M unit :=
  oldBuffer <- gets sharedVertexBuffer ;;
  modify (fun st => set_gcBuffers (gcBuffers st ++ [oldBuffer]) st) ;;
  buffer <- device_CreateBuffer
              (mkBufferConfig newSize VertexBuffer sizeof_VertexNormalUV Private) ;;
  modify (set_sharedVertexBuffer buffer) ;;
  modify (set_currentVertexSize newSize) ;;
  allocatedList <- gets vertexAllocatedList ;;
  let sortList :=
    std_sort (sort_comparator_ptr allocatedList) (Vec.pointers allocatedList) in
  call CreateCommandBuffer ;;
  call CreateFence ;;
  call CommandBuffer_Begin ;;
  allocatedList' <- lift (compact sortList 0 allocatedList) ;;
  modify (set_vertexAllocatedList allocatedList') ;;
  call CommandBuffer_End ;;
  call CommandBuffer_Commit ;;
  call Fence_Wait.

Definition ReallocateIndexAllocationToSize (newSize : Z) : M unit :=
  buffer <- device_CreateBuffer (mkBufferConfig newSize IndexBuffer 4 Private) ;;
  modify (set_sharedIndexBuffer buffer) ;;
  modify (set_currentIndexSize newSize).

(** ** [AllocateMesh] *)

(** [currentSize] and [freeList] are references to members: they are read in
    the state of the moment. *)
Fixpoint getAllocationLocation (fuel : nat) (size : Z)
    (currentSize : RenderEngine -> Z) (freeList : RenderEngine -> allocation_freelist_t)
    (realloc_fn : Z -> M unit) : M Z :=
  match fuel with
  | O => timeout
  | S fuel' =>
      fl <- gets freeList ;;
      allocation <- lift (findPlacement fuel size fl) ;;
      (if allocation =? U32.minus_one
       then cur <- gets currentSize ;; realloc_fn (U32.add cur size)
       else ret tt) ;;
      if negb (allocation =? U32.minus_one)
      then getAllocationLocation fuel' size currentSize freeList realloc_fn
      else ret allocation
  end.

(** The number of bytes of a span, received in a [uint32_t] parameter. *)
Definition size_u32 (bytes : list Byte.byte) : Z := U32.wrap (Vec.size bytes).

Definition AllocateMesh (fuel : nat) (vertexBytes indexBytes : list Byte.byte)
    : M MeshRange :=
  vertexAllocation <- getAllocationLocation fuel (size_u32 vertexBytes)
                        currentVertexSize vertexFreeList ReallocateVertexAllocationToSize ;;
  indexAllocation <- getAllocationLocation fuel (size_u32 indexBytes)
                       currentIndexSize indexFreeList ReallocateIndexAllocationToSize ;;
  vfl <- gets vertexFreeList ;;
  val <- gets vertexAllocatedList ;;
  v <- lift (consumeRange vertexAllocation (size_u32 vertexBytes) vfl val) ;;
  modify (set_vertexFreeList (snd (fst v))) ;;
  modify (set_vertexAllocatedList (snd v)) ;;
  let vertexPlacement := fst (fst v) in
  ifl <- gets indexFreeList ;;
  ial <- gets indexAllocatedList ;;
  i <- lift (consumeRange indexAllocation (size_u32 indexBytes) ifl ial) ;;
  modify (set_indexFreeList (snd (fst i))) ;;
  modify (set_indexAllocatedList (snd i)) ;;
  let indexPlacement := fst (fst i) in
  vb <- gets sharedVertexBuffer ;;
  buffer_UpdateBufferData vb vertexBytes (start vertexPlacement) ;;
  ib <- gets sharedIndexBuffer ;;
  buffer_UpdateBufferData ib indexBytes (start indexPlacement) ;;
  ret (mkMeshRange vertexPlacement indexPlacement).

(** ** [DeallocateMesh] *)

Definition DeallocateMesh (fuel : nat) (range : MeshRange) : M unit :=
  val <- gets vertexAllocatedList ;;
  vfl <- gets vertexFreeList ;;
  v <- lift (deallocateData fuel Range_default (vertRange range) val vfl) ;;
  modify (set_vertexAllocatedList (fst v)) ;;
  modify (set_vertexFreeList (snd v)) ;;
  ial <- gets indexAllocatedList ;;
  ifl <- gets indexFreeList ;;
  i <- lift (deallocateData fuel Range_default (indexRange range) ial ifl) ;;
  modify (set_indexAllocatedList (fst i)) ;;
  modify (set_indexFreeList (snd i)).

End Engine.

(** ** The tiling of a buffer *)

Definition Range_end (r : Range) : Z := start r + count r.

Definition disjoint (a b : Range) : bool :=
  (Range_end a <=? start b) || (Range_end b <=? start a).

Fixpoint pairwise_disjoint (l : list Range) : bool :=
  match l with
  | [] => true
  | r :: rest => forallb (disjoint r) rest && pairwise_disjoint rest
  end.

Definition total_count (l : list Range) : Z :=
  fold_right (fun r acc => count r + acc) 0 l.

(** The free and the allocated ranges partition [0, capacity): every range is
    non-empty and lies inside the buffer, no two overlap, and their lengths
    add up to the capacity, so that no byte is left uncovered. *)
Definition tiles (capacity : Z) (freeList allocatedList : list Range) : bool :=
  let all := freeList ++ allocatedList in
  forallb (fun r => (0 <? count r) && (0 <=? start r) && (Range_end r <=? capacity)) all
  && pairwise_disjoint all
  && (total_count all =? capacity).

(** Two ranges of which one ends where the other starts. *)
Definition adjacent (a b : Range) : bool :=
  (Range_end a =? start b) || (Range_end b =? start a).

Fixpoint no_adjacent_pair (l : list Range) : bool :=
  match l with
  | [] => true
  | r :: rest => forallb (fun r' => negb (adjacent r r')) rest && no_adjacent_pair rest
  end.

(** ** States and assumptions used in the statements *)

(** The requirement [std::sort] puts on its comparator, over the elements
    it is given: a strict weak ordering (irreflexive, transitive, with a
    transitive incomparability). *)
Definition strict_weak_ordering_on (cmp : Z -> Z -> bool) (l : list Z) : Prop :=
  (forall a, In a l -> cmp a a = false)
  /\ (forall a b c, In a l -> In b l -> In c l ->
        cmp a b = true -> cmp b c = true -> cmp a c = true)
  /\ (forall a b c, In a l -> In b l -> In c l ->
        cmp a b = false -> cmp b a = false ->
        cmp b c = false -> cmp c b = false ->
        cmp a c = false /\ cmp c a = false).

(** What the library promises of [std::sort]: when the comparator meets that
    requirement on the elements, the pointers it leaves are the pointers it
    was given. Of a call that does not meet it nothing is assumed. *)
Definition permutes (sort : (Z -> Z -> bool) -> list Z -> list Z) : Prop :=
  forall cmp l, strict_weak_ordering_on cmp l -> Permutation (sort cmp l) l.

(** The call of [std::sort] in the growth of the vertex buffer meets the
    requirement: the comparator of the source is a strict weak ordering on
    the pointers to the allocated ranges. *)
Definition comparator_valid (allocatedList : allocation_allocatedlist_t) : Prop :=
  strict_weak_ordering_on (sort_comparator_ptr allocatedList) (Vec.pointers allocatedList).

(** The calls [ReallocateVertexAllocationToSize] makes on the graphics layer. *)
Definition vertex_growth_calls (sizeof_VertexNormalUV newSize : Z) : list DeviceCall :=
  [CreateBuffer (mkBufferConfig newSize VertexBuffer sizeof_VertexNormalUV Private);
   CreateCommandBuffer; CreateFence; CommandBuffer_Begin; CommandBuffer_End;
   CommandBuffer_Commit; Fence_Wait].

(** The state [ReallocateVertexAllocationToSize] returns in, given the
    allocated list its loop produces. *)
Definition vertex_growth_state (sizeof_VertexNormalUV newSize : Z)
    (allocatedList' : allocation_allocatedlist_t) (st : RenderEngine) : RenderEngine :=
  mkRenderEngine
    (Some (mkBuffer (length (deviceLog st))
             (mkBufferConfig newSize VertexBuffer sizeof_VertexNormalUV Private)))
    (sharedIndexBuffer st) newSize (currentIndexSize st)
    (vertexFreeList st) (indexFreeList st) allocatedList' (indexAllocatedList st)
    (gcBuffers st ++ [sharedVertexBuffer st])
    (deviceLog st ++ vertex_growth_calls sizeof_VertexNormalUV newSize).

(** The state [ReallocateIndexAllocationToSize] returns in. *)
Definition index_growth_state (newSize : Z) (st : RenderEngine) : RenderEngine :=
  mkRenderEngine
    (sharedVertexBuffer st)
    (Some (mkBuffer (length (deviceLog st)) (mkBufferConfig newSize IndexBuffer 4 Private)))
    (currentVertexSize st) newSize
    (vertexFreeList st) (indexFreeList st) (vertexAllocatedList st) (indexAllocatedList st)
    (gcBuffers st)
    (deviceLog st ++ [CreateBuffer (mkBufferConfig newSize IndexBuffer 4 Private)]).

(** An engine that holds one mesh of 64 vertex bytes and 24 index bytes in
    buffers of exactly that capacity. *)
Definition one_mesh_engine : RenderEngine :=
  mkRenderEngine None None 64 24 [] [] [mkRange 0 64] [mkRange 0 24] [] [].

(** An engine whose vertex buffer of 30 bytes holds one allocation of 5
    bytes between two holes. *)
Definition single_range_engine : RenderEngine :=
  mkRenderEngine None None 30 0 [mkRange 0 20; mkRange 25 5] []
    [mkRange 20 5] [] [] [].

(** An engine whose vertex buffer of 30 bytes holds two allocations, listed
    from the higher start to the lower one, and two holes. *)
Definition two_range_engine : RenderEngine :=
  mkRenderEngine None None 30 0 [mkRange 10 10; mkRange 25 5] []
    [mkRange 20 5; mkRange 0 10] [] [] [].

(** ** Layouts used to state what growth and deallocation produce *)



(** The free list [deallocateData] leaves when its search loop is not
    entered: the pass over the free list is made against the default
    [foundRange], and the range is pushed when that pass found no border. *)
Definition freed_list (Range_default range : Range) (freeList : allocation_freelist_t)
    : allocation_freelist_t :=
  if snd (deallocateData_merge Range_default freeList false)
  then fst (deallocateData_merge Range_default freeList false)
  else Vec.push_back (fst (deallocateData_merge Range_default freeList false)) range.

(** The two tests of the loop over the free list: the entry ends where
    [foundRange] starts, or starts where [foundRange] ends. *)
Definition borders (foundRange range : Range) : bool :=
  (U32.add (start range) (count range) =? start foundRange)
  || (U32.add (start foundRange) (count foundRange) =? start range).

(** ** [InitXR]: the choice of the OpenXR extensions

    The part of [RenderEngine::InitXR] ([src/src/RenderEngine_XR.cpp]) that
    decides which extensions to enable. [ask_extensions] is the array of
    names the platform asks for and [xr_extensions] the names the runtime
    enumerated; [strcmp(a, b) == 0] is equality of the two names. *)

(** Extension names, as the OpenXR headers spell them. *)
Module XrNames.

Import String.

Definition XR_EXT_DEBUG_UTILS_EXTENSION_NAME : string := "XR_EXT_debug_utils".

Definition XR_KHR_VULKAN_ENABLE_EXTENSION_NAME : string := "XR_KHR_vulkan_enable".

Definition XR_KHR_COMPOSITION_LAYER_DEPTH_EXTENSION_NAME : string :=
  "XR_KHR_composition_layer_depth".

End XrNames.

(** The inner loop: the asked name is pushed once for every enumerated
    extension that bears it. *)
Fixpoint InitXR_push_matches (ask_ext : String.string) (xr_extensions : list String.string)
    : list String.string :=
  match xr_extensions with
  | [] => []
  | ext :: rest =>
      if String.eqb ask_ext ext
      then ask_ext :: InitXR_push_matches ask_ext rest
      else InitXR_push_matches ask_ext rest
  end.

(** The outer loop: [use_extensions] after both loops. *)
Fixpoint InitXR_use_extensions (ask_extensions xr_extensions : list String.string)
    : list String.string :=
  match ask_extensions with
  | [] => []
  | ask_ext :: rest =>
      InitXR_push_matches ask_ext xr_extensions ++ InitXR_use_extensions rest xr_extensions
  end.

(** The test that guards [Debug::Fatal("Cannot initialize XR: Required
    extension ...")]: the number of names pushed differs from the number of
    names asked for. *)
Definition InitXR_extension_missing (ask_extensions xr_extensions : list String.string)
    : bool :=
  negb (Nat.eqb (length (InitXR_use_extensions ask_extensions xr_extensions))
                (length ask_extensions)).

(** * Properties *)

Lemma Vec_get_out_of_range {A : Type} (v : list A) (i : Z) :
  Vec.size v <= i -> Vec.get v i = None.
Proof.
  revert i. induction v as [| x rest IH]; intros i Hi; simpl.
  - reflexivity.
  - unfold Vec.size in *. simpl length in Hi. rewrite Nat2Z.inj_succ in Hi.
    destruct (Z.eqb_spec i 0) as [-> | Hne]; [lia |].
    apply IH. lia.
Qed.

Example findPlacement_empty_example :
  findPlacement 0 64 [] = Returns U32.minus_one.
Proof. reflexivity. Qed.

Example findPlacement_nonempty_example :
  findPlacement 1 64 [mkRange 0 100] = Undefined OutOfBoundsRead.
Proof. reflexivity. Qed.

(** ** The search of [findPlacement] *)

Lemma findPlacement_empty (fuel : nat) (requestedSize : Z) :
  findPlacement fuel requestedSize [] = Returns U32.minus_one.
Proof. destruct fuel; reflexivity. Qed.

Lemma findPlacement_nonempty (fuel : nat) (requestedSize : Z) (r : Range)
    (rest : allocation_freelist_t) :
  Vec.size (r :: rest) < U32.modulus ->
  findPlacement (S fuel) requestedSize (r :: rest) = Undefined OutOfBoundsRead.
Proof.
  intros Hsize. unfold findPlacement.
  cbn [findPlacement_loop].
  assert (Hlt : (0 <? Vec.size (r :: rest)) = true).
  { apply Z.ltb_lt. unfold Vec.size. simpl length. lia. }
  rewrite Hlt.
  rewrite Vec_get_out_of_range; [reflexivity |].
  unfold U32.minus_one, U32.modulus in *. lia.
Qed.

(** C9, as the source has it: on an empty free list the loop body is never
    entered, so the search returns the sentinel it started with and reads
    nothing; the read at the sentinel index happens in the first iteration,
    that is on every free list that has an entry (and fewer than 2^32 of
    them, so that the sentinel is not a valid index). *)
Theorem findPlacement_reads_sentinel_index (fuel : nat) (requestedSize : Z)
    (freeList : allocation_freelist_t) :
  Vec.size freeList < U32.modulus ->
  findPlacement (S fuel) requestedSize freeList =
    match freeList with
    | [] => Returns U32.minus_one
    | _ :: _ => Undefined OutOfBoundsRead
    end.
Proof.
  intros Hsize. destruct freeList as [| r rest].
  - apply findPlacement_empty.
  - apply findPlacement_nonempty. exact Hsize.
Qed.

(** ** [consumeRange] *)

Lemma consumeRange_shrinks (allocation allocatedSize : Z) (r : Range)
    (freeList : allocation_freelist_t) (allocatedList : allocation_allocatedlist_t) :
  Vec.get freeList allocation = Some r ->
  count r <> allocatedSize ->
  consumeRange allocation allocatedSize freeList allocatedList =
    let r' := mkRange (U32.add (start r) allocatedSize) (count r) in
    Returns (r', Vec.put freeList allocation r', allocatedList ++ [r']).
Proof.
  intros Hget Hne. unfold consumeRange. rewrite Hget.
  destruct (Z.eqb_spec (count r) allocatedSize); [contradiction | reflexivity].
Qed.

(** C3, at a free range of 100 bytes from which 64 are taken: the free range
    keeps its count of 100 (only its start moves to 64), and the range pushed
    on the allocated list and returned is that moved free range (64, 100),
    not the consumed bytes (0, 64). *)
Theorem consumeRange_partial_fit :
  consumeRange 0 64 [mkRange 0 100] [] =
    Returns (mkRange 64 100, [mkRange 64 100], [mkRange 64 100]).
Proof. reflexivity. Qed.

Example consumeRange_exact_fit :
  consumeRange 0 64 [mkRange 0 64] [] = Undefined InvalidatedReference.
Proof. reflexivity. Qed.

Example consumeRange_sentinel :
  consumeRange U32.minus_one 64 [] [] = Throws_out_of_range.
Proof. reflexivity. Qed.

(** ** [deallocateData] *)

Lemma deallocateData_search_skipped (fuel : nat) (range foundRange : Range)
    (allocatedList : allocation_allocatedlist_t) :
  Vec.size allocatedList < U32.modulus ->
  deallocateData_search fuel range allocatedList U32.minus_one foundRange =
    Returns (foundRange, allocatedList).
Proof.
  intros Hsize.
  assert (Hge : (U32.minus_one <? Vec.size allocatedList) = false).
  { apply Z.ltb_ge. unfold U32.minus_one, U32.modulus in *. lia. }
  destruct fuel; cbn [deallocateData_search]; rewrite Hge; reflexivity.
Qed.

Lemma deallocateData_unfold (fuel : nat) (Range_default range : Range)
    (allocatedList : allocation_allocatedlist_t) (freeList : allocation_freelist_t) :
  Vec.size allocatedList < U32.modulus ->
  deallocateData fuel Range_default range allocatedList freeList =
    Returns (allocatedList,
             if snd (deallocateData_merge Range_default freeList false)
             then fst (deallocateData_merge Range_default freeList false)
             else Vec.push_back (fst (deallocateData_merge Range_default freeList false)) range).
Proof.
  intros Hsize. unfold deallocateData.
  rewrite deallocateData_search_skipped by exact Hsize.
  destruct (deallocateData_merge Range_default freeList false) as [fl ov].
  reflexivity.
Qed.

Lemma deallocateData_merge_length (foundRange : Range) (freeList : allocation_freelist_t)
    (overlapFound : bool) :
  length (fst (deallocateData_merge foundRange freeList overlapFound)) = length freeList.
Proof.
  revert overlapFound. induction freeList as [| r rest IH]; intros ov; simpl.
  - reflexivity.
  - destruct (deallocateData_border foundRange r ov) as [r' ov'].
    specialize (IH ov').
    destruct (deallocateData_merge foundRange rest ov') as [rest' ov''].
    simpl in *. now rewrite IH.
Qed.

(** C5, at a free list with a hole of 10 bytes between two free ranges:
    whatever the default [foundRange] is, freeing the range that fills the
    hole leaves at least two free entries, never the single entry (0, 30). *)
Theorem deallocateData_no_three_way_merge (fuel : nat) (Range_default : Range) :
  exists freeList',
    deallocateData fuel Range_default (mkRange 10 10) [mkRange 10 10]
      [mkRange 0 10; mkRange 20 10] = Returns ([mkRange 10 10], freeList')
    /\ (2 <= length freeList')%nat
    /\ freeList' <> [mkRange 0 30].
Proof.
  rewrite deallocateData_unfold by (vm_compute; reflexivity).
  match goal with |- context [Returns (_, ?x)] => set (fl := x) end.
  assert (Hlen : (2 <= length fl)%nat).
  { subst fl. destruct (snd _).
    - rewrite deallocateData_merge_length. simpl. lia.
    - unfold Vec.push_back. rewrite length_app, deallocateData_merge_length. simpl. lia. }
  exists fl. split; [reflexivity |]. split; [exact Hlen |].
  intros Heq. rewrite Heq in Hlen. simpl in Hlen. lia.
Qed.

Example deallocateData_zero_default :
  deallocateData 0 (mkRange 0 0) (mkRange 10 10) [mkRange 10 10]
    [mkRange 0 10; mkRange 20 10] =
  Returns ([mkRange 10 10], [mkRange 0 10; mkRange 20 10]).
Proof. reflexivity. Qed.

Example deallocateData_appends_adjacent :
  deallocateData 0 (mkRange 0 0) (mkRange 74 10) [mkRange 74 10] [mkRange 64 10] =
  Returns ([mkRange 74 10], [mkRange 64 10; mkRange 74 10])
  /\ no_adjacent_pair [mkRange 64 10; mkRange 74 10] = false.
Proof. split; reflexivity. Qed.

(** ** Vectors and pointers *)

Lemma Vec_get_in_range {A : Type} (v : list A) (i : Z) :
  0 <= i < Vec.size v -> exists x, Vec.get v i = Some x.
Proof.
  revert i. induction v as [| x rest IH]; intros i Hi.
  - unfold Vec.size in Hi. simpl in Hi. lia.
  - simpl. destruct (Z.eqb_spec i 0) as [-> | Hne]; [now exists x |].
    apply IH. unfold Vec.size in *. simpl length in Hi.
    rewrite Nat2Z.inj_succ in Hi. lia.
Qed.

Lemma Vec_put_length {A : Type} (v : list A) (i : Z) (x : A) :
  length (Vec.put v i x) = length v.
Proof.
  revert i. induction v as [| y rest IH]; intros i; simpl.
  - reflexivity.
  - destruct (i =? 0); simpl; [reflexivity | now rewrite IH].
Qed.

Lemma Vec_pointers_in_range {A : Type} (v : list A) (p : Z) :
  In p (Vec.pointers v) -> 0 <= p < Vec.size v.
Proof.
  unfold Vec.pointers, Vec.size. intros Hin.
  apply in_map_iff in Hin. destruct Hin as [n [<- Hn]].
  apply in_seq in Hn. lia.
Qed.

(** ** Growth *)

Lemma compact_returns (sortList : list Z) :
  forall (offset : Z) (allocatedList : allocation_allocatedlist_t),
    Forall (fun p => 0 <= p < Vec.size allocatedList) sortList ->
    exists allocatedList',
      compact sortList offset allocatedList = Returns allocatedList'
      /\ length allocatedList' = length allocatedList.
Proof.
  induction sortList as [| ptr rest IH]; intros offset allocatedList Hvalid.
  - exists allocatedList. split; reflexivity.
  - inversion Hvalid as [| ? ? Hptr Hrest]; subst.
    destruct (Vec_get_in_range allocatedList ptr Hptr) as [r Hr].
    cbn [compact]. rewrite Hr.
    destruct (IH (U32.add offset (count r))
                 (Vec.put allocatedList ptr (mkRange offset (count r)))) as [al' [Hrun Hlen]].
    + unfold Vec.size. rewrite Vec_put_length. exact Hrest.
    + exists al'. split; [exact Hrun |]. now rewrite Hlen, Vec_put_length.
Qed.

Lemma Vec_put_same_count (allocatedList : allocation_allocatedlist_t) :
  forall (ptr offset : Z) (r : Range),
    Vec.get allocatedList ptr = Some r ->
    map count (Vec.put allocatedList ptr (mkRange offset (count r))) =
      map count allocatedList.
Proof.
  induction allocatedList as [| x rest IH]; intros ptr offset r Hget; simpl in *.
  - reflexivity.
  - destruct (ptr =? 0).
    + injection Hget as ->. reflexivity.
    + simpl. f_equal. apply IH. exact Hget.
Qed.

(** The loop rewrites starts only: every entry keeps its count. *)
Lemma compact_preserves_counts (sortList : list Z) :
  forall (offset : Z) (allocatedList allocatedList' : allocation_allocatedlist_t),
    compact sortList offset allocatedList = Returns allocatedList' ->
    map count allocatedList' = map count allocatedList.
Proof.
  induction sortList as [| ptr rest IH]; intros offset al al' Hrun; cbn [compact] in Hrun.
  - injection Hrun as <-. reflexivity.
  - destruct (Vec.get al ptr) as [r |] eqn:Hget; [| discriminate].
    rewrite (IH _ _ _ Hrun). apply Vec_put_same_count. exact Hget.
Qed.

Lemma sorted_pointers_valid (std_sort : (Z -> Z -> bool) -> list Z -> list Z)
    (cmp : Z -> Z -> bool) (allocatedList : allocation_allocatedlist_t) :
  permutes std_sort ->
  strict_weak_ordering_on cmp (Vec.pointers allocatedList) ->
  Forall (fun p => 0 <= p < Vec.size allocatedList)
         (std_sort cmp (Vec.pointers allocatedList)).
Proof.
  intros Hperm Hvalid. apply Forall_forall. intros p Hin.
  apply Vec_pointers_in_range.
  eapply Permutation_in; [apply Hperm; exact Hvalid | exact Hin].
Qed.

Lemma ReallocateVertexAllocationToSize_run (sizeof_VertexNormalUV : Z)
    (std_sort : (Z -> Z -> bool) -> list Z -> list Z) (newSize : Z)
    (st : RenderEngine) (allocatedList' : allocation_allocatedlist_t) :
  compact (std_sort (sort_comparator_ptr (vertexAllocatedList st))
                    (Vec.pointers (vertexAllocatedList st)))
          0 (vertexAllocatedList st) = Returns allocatedList' ->
  ReallocateVertexAllocationToSize sizeof_VertexNormalUV std_sort newSize st =
    Done tt (vertex_growth_state sizeof_VertexNormalUV newSize allocatedList' st).
Proof.
  intros Hcompact.
  unfold ReallocateVertexAllocationToSize, bind, gets, call, modify,
    device_CreateBuffer, lift.
  cbn -[compact Vec.pointers sort_comparator_ptr]. rewrite Hcompact.
  unfold vertex_growth_state, vertex_growth_calls, modify, set_deviceLog. cbn.
  rewrite <- !app_assoc. reflexivity.
Qed.

Lemma ReallocateVertexAllocationToSize_returns (sizeof_VertexNormalUV : Z)
    (std_sort : (Z -> Z -> bool) -> list Z -> list Z) (newSize : Z) (st : RenderEngine) :
  permutes std_sort ->
  comparator_valid (vertexAllocatedList st) ->
  exists allocatedList',
    length allocatedList' = length (vertexAllocatedList st)
    /\ ReallocateVertexAllocationToSize sizeof_VertexNormalUV std_sort newSize st =
         Done tt (vertex_growth_state sizeof_VertexNormalUV newSize allocatedList' st).
Proof.
  intros Hperm Hvalid.
  destruct (compact_returns _ 0 (vertexAllocatedList st)
              (sorted_pointers_valid std_sort
                 (sort_comparator_ptr (vertexAllocatedList st))
                 (vertexAllocatedList st) Hperm Hvalid)) as [al' [Hrun Hlen]].
  exists al'. split; [exact Hlen |].
  apply ReallocateVertexAllocationToSize_run. exact Hrun.
Qed.

Lemma ReallocateIndexAllocationToSize_run (newSize : Z) (st : RenderEngine) :
  ReallocateIndexAllocationToSize newSize st = Done tt (index_growth_state newSize st).
Proof. reflexivity. Qed.

Lemma ReallocateVertexAllocationToSize_inv (sizeof_VertexNormalUV : Z)
    (std_sort : (Z -> Z -> bool) -> list Z -> list Z) (newSize : Z)
    (st st' : RenderEngine) :
  ReallocateVertexAllocationToSize sizeof_VertexNormalUV std_sort newSize st = Done tt st' ->
  exists allocatedList',
    st' = vertex_growth_state sizeof_VertexNormalUV newSize allocatedList' st.
Proof.
  intros Hrun.
  destruct (compact (std_sort (sort_comparator_ptr (vertexAllocatedList st))
                              (Vec.pointers (vertexAllocatedList st)))
                    0 (vertexAllocatedList st)) as [al' | | f |] eqn:Hcompact.
  - rewrite (ReallocateVertexAllocationToSize_run _ _ _ _ _ Hcompact) in Hrun.
    injection Hrun as <-. now exists al'.
  - revert Hrun.
    unfold ReallocateVertexAllocationToSize, bind, gets, call, modify,
      device_CreateBuffer, lift.
    cbn -[compact Vec.pointers sort_comparator_ptr]. rewrite Hcompact. discriminate.
  - revert Hrun.
    unfold ReallocateVertexAllocationToSize, bind, gets, call, modify,
      device_CreateBuffer, lift.
    cbn -[compact Vec.pointers sort_comparator_ptr]. rewrite Hcompact. discriminate.
  - revert Hrun.
    unfold ReallocateVertexAllocationToSize, bind, gets, call, modify,
      device_CreateBuffer, lift.
    cbn -[compact Vec.pointers sort_comparator_ptr]. rewrite Hcompact. discriminate.
Qed.

Lemma ReallocateVertexAllocationToSize_free_list (sizeof_VertexNormalUV : Z)
    (std_sort : (Z -> Z -> bool) -> list Z -> list Z) (newSize : Z)
    (st st' : RenderEngine) :
  ReallocateVertexAllocationToSize sizeof_VertexNormalUV std_sort newSize st = Done tt st' ->
  vertexFreeList st' = vertexFreeList st.
Proof.
  intros Hrun. apply ReallocateVertexAllocationToSize_inv in Hrun.
  destruct Hrun as [al' ->]. reflexivity.
Qed.

(** Whatever order the sort leaves, the command buffer is begun and ended
    with nothing recorded in between, and the old buffer is handed to the
    queue of buffers to destroy. *)
Lemma ReallocateVertexAllocationToSize_calls (sizeof_VertexNormalUV : Z)
    (std_sort : (Z -> Z -> bool) -> list Z -> list Z) (newSize : Z) (st : RenderEngine) :
  forall st',
    ReallocateVertexAllocationToSize sizeof_VertexNormalUV std_sort newSize st = Done tt st' ->
    deviceLog st' =
      deviceLog st ++
      [CreateBuffer (mkBufferConfig newSize VertexBuffer sizeof_VertexNormalUV Private);
       CreateCommandBuffer; CreateFence; CommandBuffer_Begin; CommandBuffer_End;
       CommandBuffer_Commit; Fence_Wait]
    /\ gcBuffers st' = gcBuffers st ++ [sharedVertexBuffer st].
Proof.
  intros st' Hrun. apply ReallocateVertexAllocationToSize_inv in Hrun.
  destruct Hrun as [al' ->]. split; reflexivity.
Qed.

Lemma insert_sorted_permutation (cmp : Z -> Z -> bool) (x : Z) (l : list Z) :
  Permutation (insert_sorted cmp x l) (x :: l).
Proof.
  induction l as [| y rest IH]; simpl.
  - apply Permutation_refl.
  - destruct (cmp y x).
    + eapply perm_trans; [apply perm_skip, IH | apply perm_swap].
    + apply Permutation_refl.
Qed.

Lemma insertion_sort_permutes : permutes insertion_sort.
Proof.
  intros cmp l _. induction l as [| x rest IH]; simpl.
  - apply perm_nil.
  - eapply perm_trans; [apply insert_sorted_permutation | apply perm_skip, IH].
Qed.

(** C7, at a vertex buffer holding (20, 5) and (0, 10), grown to 30 bytes
    with the pointers sorted by insertion under the comparator of the source:
    the comparator holds in both directions between the two ranges; the range
    at the lower start is visited first and keeps offset 0, the one at the
    higher start is moved to 10; and the command buffer is begun and ended
    with no command recorded in between. The old buffer is on [gcBuffers]. *)
Theorem ReallocateVertexAllocationToSize_two_ranges (sizeof_VertexNormalUV : Z) :
  sort_comparator (mkRange 20 5) (mkRange 0 10) = true
  /\ sort_comparator (mkRange 0 10) (mkRange 20 5) = true
  /\ ReallocateVertexAllocationToSize sizeof_VertexNormalUV insertion_sort 30
       two_range_engine =
     Done tt
       (mkRenderEngine
          (Some (mkBuffer 0 (mkBufferConfig 30 VertexBuffer sizeof_VertexNormalUV Private)))
          None 30 0 [mkRange 10 10; mkRange 25 5] []
          [mkRange 10 5; mkRange 0 10] [] [None]
          [CreateBuffer (mkBufferConfig 30 VertexBuffer sizeof_VertexNormalUV Private);
           CreateCommandBuffer; CreateFence; CommandBuffer_Begin; CommandBuffer_End;
           CommandBuffer_Commit; Fence_Wait]).
Proof.
  split; [reflexivity |]. split; [reflexivity |].
  rewrite (ReallocateVertexAllocationToSize_run sizeof_VertexNormalUV insertion_sort 30
             two_range_engine [mkRange 10 5; mkRange 0 10]); reflexivity.
Qed.

(** Growth of the vertex buffer, whenever it returns and under any order
    the sort leaves, returns with the free list it was called with and with
    the capacity set to the new size. *)
Lemma ReallocateVertexAllocationToSize_keeps_free_list (sizeof_VertexNormalUV : Z)
    (std_sort : (Z -> Z -> bool) -> list Z -> list Z) (newSize : Z) (st : RenderEngine) :
  forall st',
    ReallocateVertexAllocationToSize sizeof_VertexNormalUV std_sort newSize st = Done tt st' ->
    vertexFreeList st' = vertexFreeList st
    /\ currentVertexSize st' = newSize.
Proof.
  intros st' Hrun. apply ReallocateVertexAllocationToSize_inv in Hrun.
  destruct Hrun as [al' ->]. split; reflexivity.
Qed.

(** C8, at two calls. On the engine before any allocation, growth to 64
    bytes returns with an empty free list, not with the range (0, 64). On a
    fragmented buffer of 30 bytes holding 15 allocated bytes, growth to 40
    bytes packs the allocations into the first 15 bytes and returns with the
    two holes from before the call still in the free list, not with the
    single range (15, 25). *)
Theorem ReallocateVertexAllocationToSize_no_trailing_range (sizeof_VertexNormalUV : Z) :
  ReallocateVertexAllocationToSize sizeof_VertexNormalUV insertion_sort 64 initial_engine =
    Done tt
      (mkRenderEngine
         (Some (mkBuffer 0 (mkBufferConfig 64 VertexBuffer sizeof_VertexNormalUV Private)))
         None 64 0 [] [] [] [] [None]
         [CreateBuffer (mkBufferConfig 64 VertexBuffer sizeof_VertexNormalUV Private);
          CreateCommandBuffer; CreateFence; CommandBuffer_Begin; CommandBuffer_End;
          CommandBuffer_Commit; Fence_Wait])
  /\ ReallocateVertexAllocationToSize sizeof_VertexNormalUV insertion_sort 40
       two_range_engine =
     Done tt
       (mkRenderEngine
          (Some (mkBuffer 0 (mkBufferConfig 40 VertexBuffer sizeof_VertexNormalUV Private)))
          None 40 0 [mkRange 10 10; mkRange 25 5] []
          [mkRange 10 5; mkRange 0 10] [] [None]
          [CreateBuffer (mkBufferConfig 40 VertexBuffer sizeof_VertexNormalUV Private);
           CreateCommandBuffer; CreateFence; CommandBuffer_Begin; CommandBuffer_End;
           CommandBuffer_Commit; Fence_Wait]).
Proof.
  split.
  - rewrite (ReallocateVertexAllocationToSize_run sizeof_VertexNormalUV insertion_sort 64
               initial_engine []); reflexivity.
  - rewrite (ReallocateVertexAllocationToSize_run sizeof_VertexNormalUV insertion_sort 40
               two_range_engine [mkRange 10 5; mkRange 0 10]); reflexivity.
Qed.

(** C10: growth of the index buffer makes one call, the creation of a buffer
    of [newSize] bytes, and returns in a state that differs from the one it
    was called in by [sharedIndexBuffer] and [currentIndexSize] only: the
    four lists and [gcBuffers] are unchanged, no command buffer or fence is
    created, nothing is recorded and nothing is waited for. Growth of the
    vertex buffer, when it returns, has put the old buffer on [gcBuffers]. *)
Theorem ReallocateIndexAllocationToSize_frame (newSize : Z) (st : RenderEngine) :
  exists st',
    ReallocateIndexAllocationToSize newSize st = Done tt st'
    /\ sharedIndexBuffer st' =
         Some (mkBuffer (length (deviceLog st)) (mkBufferConfig newSize IndexBuffer 4 Private))
    /\ currentIndexSize st' = newSize
    /\ sharedVertexBuffer st' = sharedVertexBuffer st
    /\ currentVertexSize st' = currentVertexSize st
    /\ vertexFreeList st' = vertexFreeList st
    /\ indexFreeList st' = indexFreeList st
    /\ vertexAllocatedList st' = vertexAllocatedList st
    /\ indexAllocatedList st' = indexAllocatedList st
    /\ gcBuffers st' = gcBuffers st
    /\ deviceLog st' =
         deviceLog st ++ [CreateBuffer (mkBufferConfig newSize IndexBuffer 4 Private)]
    /\ (forall sizeof_VertexNormalUV std_sort st'',
          ReallocateVertexAllocationToSize sizeof_VertexNormalUV std_sort newSize st =
            Done tt st'' ->
          gcBuffers st'' = gcBuffers st ++ [sharedVertexBuffer st]).
Proof.
  exists (index_growth_state newSize st).
  repeat (split; [reflexivity |]).
  intros sizeof_VertexNormalUV std_sort st'' Hrun.
  apply ReallocateVertexAllocationToSize_inv in Hrun.
  destruct Hrun as [al' ->]. reflexivity.
Qed.

(** ** [getAllocationLocation] *)

Lemma getAllocationLocation_empty_free_list (fuel : nat) (size : Z)
    (currentSize : RenderEngine -> Z) (freeList : RenderEngine -> allocation_freelist_t)
    (realloc_fn : Z -> M unit) (st st' : RenderEngine) :
  freeList st = [] ->
  realloc_fn (U32.add (currentSize st) size) st = Done tt st' ->
  getAllocationLocation (S fuel) size currentSize freeList realloc_fn st =
    Done U32.minus_one st'.
Proof.
  intros Hfree Hgrow.
  cbn [getAllocationLocation]. unfold bind, gets, lift.
  rewrite Hfree, findPlacement_empty. cbn. rewrite Hgrow. reflexivity.
Qed.

(** The loop is left only on the iteration in which the search returned the
    sentinel: a call that returns never holds the index of a free range. *)
Lemma getAllocationLocation_returns_sentinel (fuel : nat) (size : Z)
    (currentSize : RenderEngine -> Z) (freeList : RenderEngine -> allocation_freelist_t)
    (realloc_fn : Z -> M unit) :
  forall st,
    match getAllocationLocation fuel size currentSize freeList realloc_fn st with
    | Done allocation _ => allocation = U32.minus_one
    | _ => True
    end.
Proof.
  induction fuel as [| fuel IH]; intros st.
  - exact I.
  - cbn [getAllocationLocation]. unfold bind, gets, lift.
    destruct (findPlacement (S fuel) size (freeList st)) as [allocation | | f |];
      try exact I.
    destruct (Z.eqb_spec allocation U32.minus_one) as [-> | Hne].
    + destruct (realloc_fn (U32.add (currentSize st) size) st) as [[] st' | | |];
        try exact I.
      cbn. reflexivity.
    + cbn. apply IH.
Qed.

(** C2, at an index buffer of capacity 0 with an empty free list and a
    request of 24 bytes: the buffer is grown once, to 0 + 24 bytes, and the
    loop is left at once with the sentinel 4294967295 for an index, the free
    list still being empty; and in general the loop never returns anything
    but the sentinel. *)
Theorem getAllocationLocation_leaves_with_sentinel (fuel : nat) :
  getAllocationLocation (S fuel) 24 currentIndexSize indexFreeList
    ReallocateIndexAllocationToSize initial_engine =
    Done U32.minus_one (index_growth_state 24 initial_engine)
  /\ indexFreeList (index_growth_state 24 initial_engine) = []
  /\ currentIndexSize (index_growth_state 24 initial_engine) = 24
  /\ (forall size currentSize freeList realloc_fn st,
        match getAllocationLocation fuel size currentSize freeList realloc_fn st with
        | Done allocation _ => allocation = U32.minus_one
        | _ => True
        end).
Proof.
  split; [| split; [reflexivity | split; [reflexivity |]]].
  - apply getAllocationLocation_empty_free_list; reflexivity.
  - intros. apply getAllocationLocation_returns_sentinel.
Qed.

(** ** [AllocateMesh] *)

Lemma std_sort_nil (std_sort : (Z -> Z -> bool) -> list Z -> list Z)
    (cmp : Z -> Z -> bool) :
  permutes std_sort -> std_sort cmp [] = [].
Proof.
  intros Hperm. apply Permutation_nil. apply Permutation_sym. apply Hperm.
  repeat split; intros; contradiction.
Qed.

Lemma getAllocationLocation_preserves (P : RenderEngine -> Prop) (size : Z)
    (currentSize : RenderEngine -> Z) (freeList : RenderEngine -> allocation_freelist_t)
    (realloc_fn : Z -> M unit) :
  (forall newSize st st', P st -> realloc_fn newSize st = Done tt st' -> P st') ->
  forall (fuel : nat) (st : RenderEngine),
    P st ->
    match getAllocationLocation fuel size currentSize freeList realloc_fn st with
    | Done allocation st' => allocation = U32.minus_one /\ P st'
    | _ => True
    end.
Proof.
  intros Hgrow. induction fuel as [| fuel IH]; intros st HP.
  - exact I.
  - cbn [getAllocationLocation]. unfold bind, gets, lift.
    destruct (findPlacement (S fuel) size (freeList st)) as [allocation | | f |];
      try exact I.
    destruct (Z.eqb_spec allocation U32.minus_one) as [-> | Hne].
    + destruct (realloc_fn (U32.add (currentSize st) size) st) as [[] st' | | |] eqn:Hrun;
        try exact I.
      cbn. split; [reflexivity |]. exact (Hgrow _ _ _ HP Hrun).
    + cbn. apply IH. exact HP.
Qed.

(** No call of [AllocateMesh] returns a [MeshRange]: both placement loops
    are left with the sentinel and with the vertex free list they found, and
    [at] refuses the sentinel as an index. *)
Lemma AllocateMesh_never_returns (sizeof_VertexNormalUV : Z)
    (std_sort : (Z -> Z -> bool) -> list Z -> list Z) (fuel : nat)
    (vertexBytes indexBytes : list Byte.byte) (st : RenderEngine) :
  Vec.size (vertexFreeList st) < U32.modulus ->
  forall range st',
    AllocateMesh sizeof_VertexNormalUV std_sort fuel vertexBytes indexBytes st <>
      Done range st'.
Proof.
  intros Hsize range st'. unfold AllocateMesh.
  set (P := fun s : RenderEngine => vertexFreeList s = vertexFreeList st).
  unfold bind at 1.
  pose proof (getAllocationLocation_preserves P (size_u32 vertexBytes)
                currentVertexSize vertexFreeList
                (ReallocateVertexAllocationToSize sizeof_VertexNormalUV std_sort)) as Hv.
  assert (HgrowV : forall newSize s s',
             P s ->
             ReallocateVertexAllocationToSize sizeof_VertexNormalUV std_sort newSize s =
               Done tt s' ->
             P s').
  { intros newSize s s' HP Hrun. unfold P in *.
    now rewrite (ReallocateVertexAllocationToSize_free_list _ _ _ _ _ Hrun). }
  specialize (Hv HgrowV fuel st eq_refl).
  destruct (getAllocationLocation fuel (size_u32 vertexBytes) currentVertexSize
              vertexFreeList _ st) as [a1 st1 | | |]; try discriminate.
  destruct Hv as [-> HP1].
  unfold bind at 1.
  pose proof (getAllocationLocation_preserves P (size_u32 indexBytes)
                currentIndexSize indexFreeList ReallocateIndexAllocationToSize) as Hi.
  assert (HgrowI : forall newSize s s',
             P s -> ReallocateIndexAllocationToSize newSize s = Done tt s' -> P s').
  { intros newSize s s' HP Hrun. unfold P in *.
    rewrite ReallocateIndexAllocationToSize_run in Hrun.
    injection Hrun as <-. exact HP. }
  specialize (Hi HgrowI fuel st1 HP1).
  destruct (getAllocationLocation fuel (size_u32 indexBytes) currentIndexSize
              indexFreeList _ st1) as [a2 st2 | | |]; try discriminate.
  destruct Hi as [-> HP2].
  unfold bind, gets, lift, consumeRange.
  rewrite Vec_get_out_of_range; [discriminate |].
  unfold P in HP2. rewrite HP2.
  unfold U32.minus_one, U32.modulus in *. lia.
Qed.

(** C1, on the engine before any allocation: the request for 64 vertex
    bytes and 24 index bytes grows the vertex buffer to 64 bytes and the
    index buffer to 24 bytes, once each, and then leaves by the exception of
    [freeList.at(4294967295)]: no [MeshRange] is returned, and both free lists
    and both allocated lists are still empty. *)
Theorem AllocateMesh_first_call_throws (sizeof_VertexNormalUV : Z)
    (std_sort : (Z -> Z -> bool) -> list Z -> list Z) (fuel : nat) :
  permutes std_sort ->
  AllocateMesh sizeof_VertexNormalUV std_sort (S fuel)
    (repeat Byte.x00 64) (repeat Byte.x00 24) initial_engine =
  Raised_out_of_range
    (mkRenderEngine
       (Some (mkBuffer 0 (mkBufferConfig 64 VertexBuffer sizeof_VertexNormalUV Private)))
       (Some (mkBuffer 7 (mkBufferConfig 24 IndexBuffer 4 Private)))
       64 24 [] [] [] [] [None]
       [CreateBuffer (mkBufferConfig 64 VertexBuffer sizeof_VertexNormalUV Private);
        CreateCommandBuffer; CreateFence; CommandBuffer_Begin; CommandBuffer_End;
        CommandBuffer_Commit; Fence_Wait;
        CreateBuffer (mkBufferConfig 24 IndexBuffer 4 Private)]).
Proof.
  intros Hperm. unfold AllocateMesh.
  unfold bind at 1.
  rewrite (getAllocationLocation_empty_free_list fuel _ currentVertexSize vertexFreeList
             _ initial_engine
             (vertex_growth_state sizeof_VertexNormalUV 64 [] initial_engine)).
  - unfold bind at 1.
    rewrite (getAllocationLocation_empty_free_list fuel _ currentIndexSize indexFreeList
               _ _
               (index_growth_state 24
                  (vertex_growth_state sizeof_VertexNormalUV 64 [] initial_engine))).
    + reflexivity.
    + reflexivity.
    + reflexivity.
  - reflexivity.
  - apply ReallocateVertexAllocationToSize_run. cbn.
    rewrite (std_sort_nil std_sort _ Hperm). reflexivity.
Qed.

(** ** [DeallocateMesh] *)

(** C6, on an engine whose two buffers are tiled by one allocation each:
    the lists tile both buffers before the call; [DeallocateMesh] of that
    mesh returns with each range in the free list and still in the allocated
    list, so that the two lists of either buffer overlap. *)
Theorem DeallocateMesh_breaks_tiling (fuel : nat) (Range_default : Range) :
  tiles (currentVertexSize one_mesh_engine) (vertexFreeList one_mesh_engine)
        (vertexAllocatedList one_mesh_engine) = true
  /\ tiles (currentIndexSize one_mesh_engine) (indexFreeList one_mesh_engine)
           (indexAllocatedList one_mesh_engine) = true
  /\ DeallocateMesh Range_default fuel (mkMeshRange (mkRange 0 64) (mkRange 0 24))
       one_mesh_engine =
     Done tt (mkRenderEngine None None 64 24 [mkRange 0 64] [mkRange 0 24]
                [mkRange 0 64] [mkRange 0 24] [] [])
  /\ tiles 64 [mkRange 0 64] [mkRange 0 64] = false
  /\ tiles 24 [mkRange 0 24] [mkRange 0 24] = false.
Proof.
  split; [reflexivity |]. split; [reflexivity |].
  split; [| split; reflexivity].
  unfold DeallocateMesh, bind, gets, lift, modify. cbn.
  rewrite !deallocateData_unfold by (vm_compute; reflexivity).
  reflexivity.
Qed.

Example growth_breaks_tiling :
  tiles 0 [] [] = true
  /\ ReallocateIndexAllocationToSize 24 initial_engine =
       Done tt (mkRenderEngine None
                  (Some (mkBuffer 0 (mkBufferConfig 24 IndexBuffer 4 Private)))
                  0 24 [] [] [] [] []
                  [CreateBuffer (mkBufferConfig 24 IndexBuffer 4 Private)])
  /\ tiles 24 [] [] = false.
Proof. repeat split. Qed.

(** * Instances *)

(** The search on an empty free list returns the sentinel and reads nothing. *)
Lemma findPlacement_empty_reads_nothing :
  findPlacement 1 64 [] = Returns U32.minus_one.
Proof. reflexivity. Qed.

Lemma findPlacement_reads_sentinel_index_witness :
  findPlacement 1 64 [mkRange 0 100] = Undefined OutOfBoundsRead.
Proof.
  apply (findPlacement_reads_sentinel_index 0 64 [mkRange 0 100]).
  vm_compute. reflexivity.
Defined.


Lemma AllocateMesh_first_call_throws_witness :
  AllocateMesh 32 insertion_sort 1 (repeat Byte.x00 64) (repeat Byte.x00 24)
    initial_engine =
  Raised_out_of_range
    (mkRenderEngine
       (Some (mkBuffer 0 (mkBufferConfig 64 VertexBuffer 32 Private)))
       (Some (mkBuffer 7 (mkBufferConfig 24 IndexBuffer 4 Private)))
       64 24 [] [] [] [] [None]
       [CreateBuffer (mkBufferConfig 64 VertexBuffer 32 Private);
        CreateCommandBuffer; CreateFence; CommandBuffer_Begin; CommandBuffer_End;
        CommandBuffer_Commit; Fence_Wait;
        CreateBuffer (mkBufferConfig 24 IndexBuffer 4 Private)]).
Proof.
  apply (AllocateMesh_first_call_throws 32 insertion_sort 0).
  exact insertion_sort_permutes.
Defined.

(** * Further properties of the allocator *)

(** ** The comparator of the sort *)

Lemma U32_sub_zero_iff (a b : Z) :
  0 <= a < U32.modulus -> 0 <= b < U32.modulus ->
  U32.sub b a = 0 <-> a = b.
Proof.
  intros Ha Hb. unfold U32.sub, U32.wrap, U32.modulus in *. split.
  - intros Hmod.
    destruct (Z_lt_le_dec b a) as [Hlt | Hge].
    + replace (b - a) with ((b - a + 4294967296) + (-1) * 4294967296) in Hmod by lia.
      rewrite Z_mod_plus_full in Hmod. rewrite Z.mod_small in Hmod; lia.
    + rewrite Z.mod_small in Hmod; lia.
  - intros ->. now rewrite Z.sub_diag.
Qed.

(** X1: on ranges whose starts are [uint32_t] values, the comparator given to
    [std::sort] holds exactly when the two starts differ; it is therefore
    symmetric, and it holds in both directions between any two ranges that
    do not start at the same offset. *)
Theorem sort_comparator_tests_inequality (a b : Range) :
  0 <= start a < U32.modulus ->
  0 <= start b < U32.modulus ->
  (sort_comparator a b = true <-> start a <> start b)
  /\ sort_comparator a b = sort_comparator b a.
Proof.
  intros Ha Hb.
  assert (Hiff : forall x y, 0 <= start x < U32.modulus -> 0 <= start y < U32.modulus ->
                   (sort_comparator x y = true <-> start x <> start y)).
  { intros x y Hx Hy. unfold sort_comparator, U32.to_bool.
    rewrite negb_true_iff, Z.eqb_neq.
    pose proof (U32_sub_zero_iff (start x) (start y) Hx Hy) as H. tauto. }
  split; [apply Hiff; assumption |].
  destruct (sort_comparator a b) eqn:Hab, (sort_comparator b a) eqn:Hba; try reflexivity.
  - apply Hiff in Hab; try assumption.
    assert (Hne : start b <> start a) by congruence.
    apply Hiff in Hne; try assumption. congruence.
  - apply Hiff in Hba; try assumption.
    assert (Hne : start a <> start b) by congruence.
    apply Hiff in Hne; try assumption. congruence.
Qed.

Lemma sort_comparator_tests_inequality_witness :
  (sort_comparator (mkRange 20 5) (mkRange 0 10) = true <-> 20 <> 0)
  /\ sort_comparator (mkRange 20 5) (mkRange 0 10) =
     sort_comparator (mkRange 0 10) (mkRange 20 5).
Proof.
  apply (sort_comparator_tests_inequality (mkRange 20 5) (mkRange 0 10));
    vm_compute; split; congruence.
Defined.

(** ** [consumeRange] on any free list *)

Lemma Vec_get_put_same {A : Type} (v : list A) :
  forall (i : Z) (x y : A), Vec.get v i = Some y -> Vec.get (Vec.put v i x) i = Some x.
Proof.
  induction v as [| z rest IH]; intros i x y Hget; simpl in *.
  - discriminate.
  - destruct (i =? 0) eqn:Hi; simpl; rewrite Hi; [reflexivity |].
    eapply IH. exact Hget.
Qed.


(** X2: when the index handed to [consumeRange] is not below the size of the
    free list (as the sentinel is, on every list of fewer than 2^32 entries),
    the call leaves by [std::out_of_range] before touching either list. *)
Theorem consumeRange_index_out_of_range (allocation allocatedSize : Z)
    (freeList : allocation_freelist_t) (allocatedList : allocation_allocatedlist_t) :
  Vec.size freeList <= allocation ->
  consumeRange allocation allocatedSize freeList allocatedList = Throws_out_of_range.
Proof.
  intros Hsize. unfold consumeRange.
  now rewrite Vec_get_out_of_range.
Qed.

Lemma consumeRange_index_out_of_range_witness :
  consumeRange U32.minus_one 64 [mkRange 0 100] [mkRange 100 8] = Throws_out_of_range.
Proof.
  apply (consumeRange_index_out_of_range U32.minus_one 64 [mkRange 0 100] [mkRange 100 8]).
  vm_compute. discriminate.
Defined.

(** X3: when the free range at the index is not an exact fit, whatever the
    requested size (it may even exceed the range), [consumeRange] returns the
    entry it leaves in the free list: that entry and the one pushed on the
    allocated list are the same range, its start is the old start plus the
    request in 32-bit arithmetic, and no count in the free list changes. *)
Theorem consumeRange_records_the_free_entry (allocation allocatedSize : Z) (r : Range)
    (freeList : allocation_freelist_t) (allocatedList : allocation_allocatedlist_t) :
  Vec.get freeList allocation = Some r ->
  count r <> allocatedSize ->
  exists placed freeList',
    consumeRange allocation allocatedSize freeList allocatedList =
      Returns (placed, freeList', allocatedList ++ [placed])
    /\ placed = mkRange (U32.add (start r) allocatedSize) (count r)
    /\ Vec.get freeList' allocation = Some placed
    /\ map count freeList' = map count freeList
    /\ length freeList' = length freeList.
Proof.
  intros Hget Hne.
  exists (mkRange (U32.add (start r) allocatedSize) (count r)).
  exists (Vec.put freeList allocation (mkRange (U32.add (start r) allocatedSize) (count r))).
  split; [| split; [reflexivity | split; [| split]]].
  - rewrite (consumeRange_shrinks _ _ r) by assumption. reflexivity.
  - eapply Vec_get_put_same. exact Hget.
  - apply Vec_put_same_count. exact Hget.
  - apply Vec_put_length.
Qed.

Lemma consumeRange_records_the_free_entry_witness :
  exists placed freeList',
    consumeRange 1 200 [mkRange 0 8; mkRange 50 100] [mkRange 8 42] =
      Returns (placed, freeList', [mkRange 8 42] ++ [placed])
    /\ placed = mkRange (U32.add 50 200) 100
    /\ Vec.get freeList' 1 = Some placed
    /\ map count freeList' = map count [mkRange 0 8; mkRange 50 100]
    /\ length freeList' = length [mkRange 0 8; mkRange 50 100].
Proof.
  apply (consumeRange_records_the_free_entry 1 200 (mkRange 50 100)
           [mkRange 0 8; mkRange 50 100] [mkRange 8 42]).
  - reflexivity.
  - vm_compute. discriminate.
Defined.

(** ** The size requested from growth *)

(** X4: the new size handed to the growth function is the sum of the
    capacity and the request in 32-bit arithmetic. With an empty index free
    list, a capacity and a request whose sum reaches 2^32 make the placement
    loop re-create the index buffer with the wrapped sum for a capacity,
    which is smaller than the capacity it had. *)
Theorem getAllocationLocation_wraps_capacity (fuel : nat) (size : Z) (st : RenderEngine) :
  indexFreeList st = [] ->
  0 <= currentIndexSize st < U32.modulus ->
  0 <= size < U32.modulus ->
  U32.modulus <= currentIndexSize st + size ->
  exists st',
    getAllocationLocation (S fuel) size currentIndexSize indexFreeList
      ReallocateIndexAllocationToSize st = Done U32.minus_one st'
    /\ currentIndexSize st' = currentIndexSize st + size - U32.modulus
    /\ currentIndexSize st' < currentIndexSize st
    /\ sharedIndexBuffer st' =
         Some (mkBuffer (length (deviceLog st))
                 (mkBufferConfig (currentIndexSize st + size - U32.modulus)
                    IndexBuffer 4 Private)).
Proof.
  intros Hfree Hcur Hsize Hsum.
  assert (Hwrap : U32.add (currentIndexSize st) size =
                  currentIndexSize st + size - U32.modulus).
  { unfold U32.add, U32.wrap, U32.modulus in *.
    symmetry. apply Z.mod_unique with (q := 1); lia. }
  exists (index_growth_state (U32.add (currentIndexSize st) size) st).
  split.
  - apply getAllocationLocation_empty_free_list; [exact Hfree | reflexivity].
  - cbn. rewrite Hwrap. repeat split. lia.
Qed.

Lemma getAllocationLocation_wraps_capacity_witness :
  exists st',
    getAllocationLocation 1 16 currentIndexSize indexFreeList
      ReallocateIndexAllocationToSize
      (mkRenderEngine None None 0 4294967290 [] [] [] [] [] []) = Done U32.minus_one st'
    /\ currentIndexSize st' = 4294967290 + 16 - U32.modulus
    /\ currentIndexSize st' < 4294967290
    /\ sharedIndexBuffer st' =
         Some (mkBuffer 0
                 (mkBufferConfig (4294967290 + 16 - U32.modulus) IndexBuffer 4 Private)).
Proof.
  apply (getAllocationLocation_wraps_capacity 0 16
           (mkRenderEngine None None 0 4294967290 [] [] [] [] [] [])).
  - reflexivity.
  - vm_compute. split; congruence.
  - vm_compute. split; congruence.
  - vm_compute. discriminate.
Defined.

(** ** [deallocateData] on any free list *)

Lemma deallocateData_border_unchanged (foundRange range : Range) (overlapFound : bool) :
  borders foundRange range = false ->
  deallocateData_border foundRange range overlapFound = (range, overlapFound).
Proof.
  unfold borders, deallocateData_border. intros Hb.
  apply orb_false_iff in Hb. destruct Hb as [H1 H2].
  rewrite H1, H2. reflexivity.
Qed.

Lemma deallocateData_merge_unchanged (foundRange : Range)
    (freeList : allocation_freelist_t) (overlapFound : bool) :
  forallb (fun r => negb (borders foundRange r)) freeList = true ->
  deallocateData_merge foundRange freeList overlapFound = (freeList, overlapFound).
Proof.
  induction freeList as [| r rest IH]; intros Hall; simpl in *.
  - reflexivity.
  - apply andb_true_iff in Hall. destruct Hall as [Hr Hrest].
    apply negb_true_iff in Hr.
    rewrite (deallocateData_border_unchanged _ _ _ Hr), (IH Hrest). reflexivity.
Qed.

Lemma freed_list_length (Range_default range : Range) (freeList : allocation_freelist_t) :
  (length freeList <= length (freed_list Range_default range freeList)
   <= S (length freeList))%nat.
Proof.
  unfold freed_list. destruct (snd _).
  - rewrite deallocateData_merge_length. lia.
  - unfold Vec.push_back. rewrite length_app, deallocateData_merge_length. simpl. lia.
Qed.

Lemma freed_list_nonempty (Range_default range : Range) (freeList : allocation_freelist_t) :
  freed_list Range_default range freeList <> [].
Proof.
  unfold freed_list. destruct (snd _) eqn:Hov.
  - destruct freeList as [| r rest].
    + simpl in Hov. discriminate.
    + intros Hnil. apply (f_equal (@length _)) in Hnil.
      rewrite deallocateData_merge_length in Hnil. discriminate.
  - unfold Vec.push_back. intros Hnil. apply app_eq_nil in Hnil.
    destruct Hnil as [_ Hnil]. discriminate.
Qed.

Lemma deallocateData_run (fuel : nat) (Range_default range : Range)
    (allocatedList : allocation_allocatedlist_t) (freeList : allocation_freelist_t) :
  Vec.size allocatedList < U32.modulus ->
  deallocateData fuel Range_default range allocatedList freeList =
    Returns (allocatedList, freed_list Range_default range freeList).
Proof. apply deallocateData_unfold. Qed.

(** X5: a range that no free entry borders, as the loop tests it against the
    default [foundRange], is pushed at the back of the free list with every
    existing entry as it was, whether or not it touches or overlaps one of
    them; the allocated list is what it was. *)
Theorem deallocateData_appends_unmerged (fuel : nat) (Range_default range : Range)
    (allocatedList : allocation_allocatedlist_t) (freeList : allocation_freelist_t) :
  Vec.size allocatedList < U32.modulus ->
  forallb (fun r => negb (borders Range_default r)) freeList = true ->
  deallocateData fuel Range_default range allocatedList freeList =
    Returns (allocatedList, freeList ++ [range]).
Proof.
  intros Hsize Hall. rewrite deallocateData_run by exact Hsize.
  unfold freed_list. rewrite (deallocateData_merge_unchanged _ _ _ Hall). reflexivity.
Qed.

Lemma deallocateData_appends_unmerged_witness :
  deallocateData 0 (mkRange 0 0) (mkRange 64 16) [mkRange 64 16]
    [mkRange 32 32; mkRange 80 20] =
  Returns ([mkRange 64 16], [mkRange 32 32; mkRange 80 20] ++ [mkRange 64 16]).
Proof.
  apply (deallocateData_appends_unmerged 0 (mkRange 0 0) (mkRange 64 16) [mkRange 64 16]
           [mkRange 32 32; mkRange 80 20]).
  - vm_compute. reflexivity.
  - reflexivity.
Defined.

(** ** [DeallocateMesh] on any engine *)

Lemma DeallocateMesh_run (Range_default : Range) (fuel : nat) (range : MeshRange)
    (st : RenderEngine) :
  Vec.size (vertexAllocatedList st) < U32.modulus ->
  Vec.size (indexAllocatedList st) < U32.modulus ->
  DeallocateMesh Range_default fuel range st =
    Done tt
      (mkRenderEngine (sharedVertexBuffer st) (sharedIndexBuffer st)
         (currentVertexSize st) (currentIndexSize st)
         (freed_list Range_default (vertRange range) (vertexFreeList st))
         (freed_list Range_default (indexRange range) (indexFreeList st))
         (vertexAllocatedList st) (indexAllocatedList st)
         (gcBuffers st) (deviceLog st)).
Proof.
  intros Hv Hi.
  unfold DeallocateMesh, bind, gets, lift, modify.
  cbn -[deallocateData freed_list].
  rewrite (deallocateData_run _ _ _ _ _ Hv).
  cbn -[deallocateData freed_list].
  rewrite (deallocateData_run _ _ _ _ _ Hi).
  reflexivity.
Qed.

(** X6: on an engine whose allocated lists have fewer than 2^32 entries,
    [DeallocateMesh] always returns, whatever range it is given. It makes no
    call on the graphics layer and changes neither buffer, neither capacity,
    neither allocated list nor [gcBuffers]; each free list keeps its length
    or grows by one entry, so that no free list is empty afterwards. *)
Theorem DeallocateMesh_frame (Range_default : Range) (fuel : nat) (range : MeshRange)
    (st : RenderEngine) :
  Vec.size (vertexAllocatedList st) < U32.modulus ->
  Vec.size (indexAllocatedList st) < U32.modulus ->
  exists st',
    DeallocateMesh Range_default fuel range st = Done tt st'
    /\ vertexAllocatedList st' = vertexAllocatedList st
    /\ indexAllocatedList st' = indexAllocatedList st
    /\ sharedVertexBuffer st' = sharedVertexBuffer st
    /\ sharedIndexBuffer st' = sharedIndexBuffer st
    /\ currentVertexSize st' = currentVertexSize st
    /\ currentIndexSize st' = currentIndexSize st
    /\ gcBuffers st' = gcBuffers st
    /\ deviceLog st' = deviceLog st
    /\ (length (vertexFreeList st) <= length (vertexFreeList st')
        <= S (length (vertexFreeList st)))%nat
    /\ (length (indexFreeList st) <= length (indexFreeList st')
        <= S (length (indexFreeList st)))%nat
    /\ vertexFreeList st' <> []
    /\ indexFreeList st' <> [].
Proof.
  intros Hv Hi. eexists. split; [apply DeallocateMesh_run; assumption |].
  cbn -[freed_list].
  repeat (split; [reflexivity |]).
  split; [apply freed_list_length |].
  split; [apply freed_list_length |].
  split; apply freed_list_nonempty.
Qed.

Lemma DeallocateMesh_frame_witness :
  exists st',
    DeallocateMesh (mkRange 0 0) 0 (mkMeshRange (mkRange 7 9) (mkRange 3 5))
      one_mesh_engine = Done tt st'
    /\ vertexAllocatedList st' = vertexAllocatedList one_mesh_engine
    /\ indexAllocatedList st' = indexAllocatedList one_mesh_engine
    /\ sharedVertexBuffer st' = sharedVertexBuffer one_mesh_engine
    /\ sharedIndexBuffer st' = sharedIndexBuffer one_mesh_engine
    /\ currentVertexSize st' = currentVertexSize one_mesh_engine
    /\ currentIndexSize st' = currentIndexSize one_mesh_engine
    /\ gcBuffers st' = gcBuffers one_mesh_engine
    /\ deviceLog st' = deviceLog one_mesh_engine
    /\ (length (vertexFreeList one_mesh_engine) <= length (vertexFreeList st')
        <= S (length (vertexFreeList one_mesh_engine)))%nat
    /\ (length (indexFreeList one_mesh_engine) <= length (indexFreeList st')
        <= S (length (indexFreeList one_mesh_engine)))%nat
    /\ vertexFreeList st' <> []
    /\ indexFreeList st' <> [].
Proof.
  apply (DeallocateMesh_frame (mkRange 0 0) 0 (mkMeshRange (mkRange 7 9) (mkRange 3 5))
           one_mesh_engine); vm_compute; reflexivity.
Defined.

(** ** [AllocateMesh] on any engine *)

Lemma AllocateMesh_vertex_free_list_nonempty (sizeof_VertexNormalUV : Z)
    (std_sort : (Z -> Z -> bool) -> list Z -> list Z) (fuel : nat)
    (vertexBytes indexBytes : list Byte.byte) (st : RenderEngine) :
  vertexFreeList st <> [] ->
  Vec.size (vertexFreeList st) < U32.modulus ->
  AllocateMesh sizeof_VertexNormalUV std_sort (S fuel) vertexBytes indexBytes st =
    Fault OutOfBoundsRead.
Proof.
  intros Hne Hsize. unfold AllocateMesh. unfold bind at 1.
  cbn [getAllocationLocation]. unfold bind at 1. unfold gets at 1.
  unfold bind at 1. unfold lift at 1.
  destruct (vertexFreeList st) as [| r rest]; [contradiction |].
  rewrite findPlacement_nonempty by exact Hsize. reflexivity.
Qed.

(** X7: no mesh can be allocated once one has been deallocated. After any
    [DeallocateMesh] the vertex free list has an entry, and every later
    [AllocateMesh], whatever its data, reads that list at index 4294967295 in
    the first iteration of its search. *)
Theorem AllocateMesh_after_DeallocateMesh (Range_default : Range) (fuel : nat)
    (range : MeshRange) (st : RenderEngine) :
  Vec.size (vertexAllocatedList st) < U32.modulus ->
  Vec.size (indexAllocatedList st) < U32.modulus ->
  Vec.size (vertexFreeList st) + 1 < U32.modulus ->
  exists st',
    DeallocateMesh Range_default fuel range st = Done tt st'
    /\ forall sizeof_VertexNormalUV std_sort fuel' vertexBytes indexBytes,
         AllocateMesh sizeof_VertexNormalUV std_sort (S fuel') vertexBytes indexBytes st' =
           Fault OutOfBoundsRead.
Proof.
  intros Hv Hi Hfree. eexists. split; [apply DeallocateMesh_run; assumption |].
  intros sizeof_VertexNormalUV std_sort fuel' vertexBytes indexBytes.
  apply AllocateMesh_vertex_free_list_nonempty; cbn -[freed_list].
  - apply freed_list_nonempty.
  - pose proof (freed_list_length Range_default (vertRange range) (vertexFreeList st)) as Hlen.
    unfold Vec.size in *. lia.
Qed.

Lemma AllocateMesh_after_DeallocateMesh_witness :
  exists st',
    DeallocateMesh (mkRange 0 0) 0 (mkMeshRange (mkRange 0 64) (mkRange 0 24))
      one_mesh_engine = Done tt st'
    /\ forall sizeof_VertexNormalUV std_sort fuel' vertexBytes indexBytes,
         AllocateMesh sizeof_VertexNormalUV std_sort (S fuel') vertexBytes indexBytes st' =
           Fault OutOfBoundsRead.
Proof.
  apply (AllocateMesh_after_DeallocateMesh (mkRange 0 0) 0
           (mkMeshRange (mkRange 0 64) (mkRange 0 24)) one_mesh_engine);
    vm_compute; reflexivity.
Defined.

Lemma Vec_get_In {A : Type} (v : list A) :
  forall (i : Z) (x : A), Vec.get v i = Some x -> In x v.
Proof.
  induction v as [| y rest IH]; intros i x Hget; cbn in Hget.
  - discriminate.
  - destruct (i =? 0).
    + injection Hget as ->. now left.
    + right. eapply IH. exact Hget.
Qed.

(** The comparator of the source meets the requirement of [std::sort] when
    no two allocated ranges have different starts (as when at most one range
    is allocated): it is then false on every pair. *)
Lemma comparator_valid_same_start (allocatedList : allocation_allocatedlist_t) :
  (forall r1 r2, In r1 allocatedList -> In r2 allocatedList -> start r1 = start r2) ->
  comparator_valid allocatedList.
Proof.
  intros Hsame.
  assert (Hfalse : forall a b, sort_comparator_ptr allocatedList a b = false).
  { intros a b. unfold sort_comparator_ptr.
    destruct (Vec.get allocatedList a) as [ra |] eqn:Ha; [| reflexivity].
    destruct (Vec.get allocatedList b) as [rb |] eqn:Hb; [| reflexivity].
    unfold sort_comparator, U32.to_bool, U32.sub, U32.wrap.
    rewrite (Hsame ra rb (Vec_get_In _ _ _ Ha) (Vec_get_In _ _ _ Hb)).
    rewrite Z.sub_diag. reflexivity. }
  repeat split; intros; try apply Hfalse.
  rewrite Hfalse in *. discriminate.
Qed.

(** X8: on an engine whose two free lists are empty and on whose allocated
    vertex ranges the comparator meets the requirement of [std::sort] (no two
    of them start at different offsets; in particular when none or one is
    allocated), every [AllocateMesh] re-creates the vertex buffer and the
    index buffer, each with its capacity plus the request (in 32-bit
    arithmetic) for a size, and then leaves by [std::out_of_range]. The free
    lists are still empty, so the next call does the same; the old vertex
    buffer is on [gcBuffers], the old index buffer is not; and the log ends
    with the creation of the index buffer: the data of the mesh is not
    uploaded. *)
Theorem AllocateMesh_grows_then_throws (sizeof_VertexNormalUV : Z)
    (std_sort : (Z -> Z -> bool) -> list Z -> list Z) (fuel : nat)
    (vertexBytes indexBytes : list Byte.byte) (st : RenderEngine) :
  permutes std_sort ->
  comparator_valid (vertexAllocatedList st) ->
  vertexFreeList st = [] ->
  indexFreeList st = [] ->
  exists st',
    AllocateMesh sizeof_VertexNormalUV std_sort (S fuel) vertexBytes indexBytes st =
      Raised_out_of_range st'
    /\ currentVertexSize st' = U32.add (currentVertexSize st) (size_u32 vertexBytes)
    /\ currentIndexSize st' = U32.add (currentIndexSize st) (size_u32 indexBytes)
    /\ vertexFreeList st' = []
    /\ indexFreeList st' = []
    /\ length (vertexAllocatedList st') = length (vertexAllocatedList st)
    /\ indexAllocatedList st' = indexAllocatedList st
    /\ gcBuffers st' = gcBuffers st ++ [sharedVertexBuffer st]
    /\ deviceLog st' =
         deviceLog st ++
         vertex_growth_calls sizeof_VertexNormalUV
           (U32.add (currentVertexSize st) (size_u32 vertexBytes)) ++
         [CreateBuffer
            (mkBufferConfig (U32.add (currentIndexSize st) (size_u32 indexBytes))
               IndexBuffer 4 Private)].
Proof.
  intros Hperm Hvalid Hvfl Hifl.
  destruct (ReallocateVertexAllocationToSize_returns sizeof_VertexNormalUV std_sort
              (U32.add (currentVertexSize st) (size_u32 vertexBytes)) st Hperm Hvalid)
    as [al' [Hlen Hgrow]].
  eexists. split.
  - unfold AllocateMesh. unfold bind at 1.
    rewrite (getAllocationLocation_empty_free_list fuel _ currentVertexSize vertexFreeList
               _ st _ Hvfl Hgrow).
    unfold bind at 1.
    rewrite (getAllocationLocation_empty_free_list fuel _ currentIndexSize indexFreeList
               _ (vertex_growth_state sizeof_VertexNormalUV
                    (U32.add (currentVertexSize st) (size_u32 vertexBytes)) al' st)
               _ Hifl (ReallocateIndexAllocationToSize_run _ _)).
    unfold bind, gets, lift. cbn. rewrite Hvfl. reflexivity.
  - cbn. rewrite <- app_assoc. repeat split; assumption.
Qed.

Lemma AllocateMesh_grows_then_throws_witness :
  exists st',
    AllocateMesh 32 insertion_sort 1 (repeat Byte.x00 32) (repeat Byte.x00 12)
      one_mesh_engine = Raised_out_of_range st'
    /\ currentVertexSize st' = U32.add 64 (size_u32 (repeat Byte.x00 32))
    /\ currentIndexSize st' = U32.add 24 (size_u32 (repeat Byte.x00 12))
    /\ vertexFreeList st' = []
    /\ indexFreeList st' = []
    /\ length (vertexAllocatedList st') = 1%nat
    /\ indexAllocatedList st' = [mkRange 0 24]
    /\ gcBuffers st' = [] ++ [None]
    /\ deviceLog st' =
         [] ++
         vertex_growth_calls 32 (U32.add 64 (size_u32 (repeat Byte.x00 32))) ++
         [CreateBuffer
            (mkBufferConfig (U32.add 24 (size_u32 (repeat Byte.x00 12)))
               IndexBuffer 4 Private)].
Proof.
  apply (AllocateMesh_grows_then_throws 32 insertion_sort 0 (repeat Byte.x00 32)
           (repeat Byte.x00 12) one_mesh_engine).
  - exact insertion_sort_permutes.
  - apply comparator_valid_same_start.
    intros r1 r2 [<- | []] [<- | []]. reflexivity.
  - reflexivity.
  - reflexivity.
Defined.

(** X9: no call of [AllocateMesh] returns a [MeshRange], on any engine whose
    vertex free list has fewer than 2^32 entries, with any data, under any
    order of the sort and any bound on the loops: the call throws, runs into
    undefined behaviour or does not end. *)
Theorem AllocateMesh_returns_no_MeshRange (sizeof_VertexNormalUV : Z)
    (std_sort : (Z -> Z -> bool) -> list Z -> list Z) (fuel : nat)
    (vertexBytes indexBytes : list Byte.byte) (st : RenderEngine) :
  Vec.size (vertexFreeList st) < U32.modulus ->
  match AllocateMesh sizeof_VertexNormalUV std_sort fuel vertexBytes indexBytes st with
  | Done _ _ => False
  | _ => True
  end.
Proof.
  intros Hsize.
  pose proof (AllocateMesh_never_returns sizeof_VertexNormalUV std_sort fuel
                vertexBytes indexBytes st Hsize) as Hnever.
  destruct (AllocateMesh sizeof_VertexNormalUV std_sort fuel vertexBytes indexBytes st)
    as [range st' | | |]; try exact I.
  exact (Hnever range st' eq_refl).
Qed.

Lemma AllocateMesh_returns_no_MeshRange_witness :
  match AllocateMesh 32 insertion_sort 3 (repeat Byte.x00 8) (repeat Byte.x00 4)
          two_range_engine with
  | Done _ _ => False
  | _ => True
  end.
Proof.
  apply (AllocateMesh_returns_no_MeshRange 32 insertion_sort 3 (repeat Byte.x00 8)
           (repeat Byte.x00 4) two_range_engine).
  vm_compute. reflexivity.
Defined.

(** ** Growth of the vertex buffer on any engine *)

Lemma ReallocateVertexAllocationToSize_compacts (sizeof_VertexNormalUV : Z)
    (std_sort : (Z -> Z -> bool) -> list Z -> list Z) (newSize : Z) (st : RenderEngine) :
  permutes std_sort ->
  comparator_valid (vertexAllocatedList st) ->
  exists allocatedList',
    compact (std_sort (sort_comparator_ptr (vertexAllocatedList st))
                      (Vec.pointers (vertexAllocatedList st)))
            0 (vertexAllocatedList st) = Returns allocatedList'
    /\ ReallocateVertexAllocationToSize sizeof_VertexNormalUV std_sort newSize st =
         Done tt (vertex_growth_state sizeof_VertexNormalUV newSize allocatedList' st).
Proof.
  intros Hperm Hvalid.
  destruct (compact_returns _ 0 (vertexAllocatedList st)
              (sorted_pointers_valid std_sort
                 (sort_comparator_ptr (vertexAllocatedList st))
                 (vertexAllocatedList st) Hperm Hvalid)) as [al' [Hrun _]].
  exists al'. split; [exact Hrun |].
  apply ReallocateVertexAllocationToSize_run. exact Hrun.
Qed.

(** X10: when the comparator meets the requirement of [std::sort] on the
    allocated vertex ranges (no two of them start at different offsets),
    growth of the vertex buffer returns, in a state in which the vertex buffer
    is a new private vertex buffer of [newSize] bytes, the capacity is
    [newSize] whether that is more or less than before, and the old buffer is
    at the back of [gcBuffers]. Every allocated entry keeps its count; the
    vertex free list and all of the index side (buffer, capacity, free list,
    allocated list) are untouched. *)
Theorem ReallocateVertexAllocationToSize_frame (sizeof_VertexNormalUV : Z)
    (std_sort : (Z -> Z -> bool) -> list Z -> list Z) (newSize : Z) (st : RenderEngine) :
  permutes std_sort ->
  comparator_valid (vertexAllocatedList st) ->
  exists st',
    ReallocateVertexAllocationToSize sizeof_VertexNormalUV std_sort newSize st = Done tt st'
    /\ sharedVertexBuffer st' =
         Some (mkBuffer (length (deviceLog st))
                 (mkBufferConfig newSize VertexBuffer sizeof_VertexNormalUV Private))
    /\ currentVertexSize st' = newSize
    /\ gcBuffers st' = gcBuffers st ++ [sharedVertexBuffer st]
    /\ map count (vertexAllocatedList st') = map count (vertexAllocatedList st)
    /\ vertexFreeList st' = vertexFreeList st
    /\ sharedIndexBuffer st' = sharedIndexBuffer st
    /\ currentIndexSize st' = currentIndexSize st
    /\ indexFreeList st' = indexFreeList st
    /\ indexAllocatedList st' = indexAllocatedList st.
Proof.
  intros Hperm Hvalid.
  destruct (ReallocateVertexAllocationToSize_compacts sizeof_VertexNormalUV std_sort
              newSize st Hperm Hvalid) as [al' [Hcompact Hrun]].
  eexists. split; [exact Hrun |]. cbn.
  repeat (split; [reflexivity |]).
  split; [| repeat split].
  eapply compact_preserves_counts. exact Hcompact.
Qed.

Lemma ReallocateVertexAllocationToSize_frame_witness :
  exists st',
    ReallocateVertexAllocationToSize 32 insertion_sort 8 single_range_engine = Done tt st'
    /\ sharedVertexBuffer st' =
         Some (mkBuffer 0 (mkBufferConfig 8 VertexBuffer 32 Private))
    /\ currentVertexSize st' = 8
    /\ gcBuffers st' = [] ++ [None]
    /\ map count (vertexAllocatedList st') = [5]
    /\ vertexFreeList st' = [mkRange 0 20; mkRange 25 5]
    /\ sharedIndexBuffer st' = None
    /\ currentIndexSize st' = 0
    /\ indexFreeList st' = []
    /\ indexAllocatedList st' = [].
Proof.
  apply (ReallocateVertexAllocationToSize_frame 32 insertion_sort 8 single_range_engine).
  - exact insertion_sort_permutes.
  - apply comparator_valid_same_start.
    intros r1 r2 [<- | []] [<- | []]. reflexivity.
Defined.

(** ** The layout growth leaves *)

Lemma Vec_get_of_nat {A : Type} (v : list A) :
  forall n : nat, Vec.get v (Z.of_nat n) = nth_error v n.
Proof.
  induction v as [| x rest IH]; intros n.
  - destruct n; reflexivity.
  - destruct n as [| n]; [reflexivity |].
    cbn [Vec.get nth_error].
    destruct (Z.eqb_spec (Z.of_nat (S n)) 0) as [H0 | _]; [lia |].
    replace (Z.of_nat (S n) - 1) with (Z.of_nat n) by lia.
    apply IH.
Qed.

Lemma map_nth_error_seq {A : Type} (v : list A) :
  map (nth_error v) (seq 0 (length v)) = map Some v.
Proof.
  induction v as [| x rest IH]; [reflexivity |].
  cbn [length seq map nth_error]. f_equal.
  rewrite <- seq_shift, map_map. exact IH.
Qed.

Lemma Vec_map_get_pointers {A : Type} (v : list A) :
  map (Vec.get v) (Vec.pointers v) = map Some v.
Proof.
  unfold Vec.pointers. rewrite map_map.
  rewrite (map_ext _ (nth_error v)) by (intros n; apply Vec_get_of_nat).
  apply map_nth_error_seq.
Qed.














(** * [InitXR]: the choice of the extensions *)

Lemma InitXR_push_matches_absent (ask_ext : String.string)
    (xr_extensions : list String.string) :
  ~ In ask_ext xr_extensions -> InitXR_push_matches ask_ext xr_extensions = [].
Proof.
  induction xr_extensions as [| ext rest IH]; intros Hnotin; cbn.
  - reflexivity.
  - destruct (String.eqb_spec ask_ext ext) as [-> | Hne].
    + exfalso. apply Hnotin. now left.
    + apply IH. intros Hin. apply Hnotin. now right.
Qed.

Lemma InitXR_push_matches_present (ask_ext : String.string)
    (xr_extensions : list String.string) :
  NoDup xr_extensions ->
  In ask_ext xr_extensions ->
  InitXR_push_matches ask_ext xr_extensions = [ask_ext].
Proof.
  induction xr_extensions as [| ext rest IH]; intros Hnodup Hin; cbn.
  - contradiction.
  - inversion Hnodup as [| ? ? Hnotin Hnodup']; subst.
    destruct (String.eqb_spec ask_ext ext) as [-> | Hne].
    + now rewrite InitXR_push_matches_absent.
    + apply IH; [exact Hnodup' |]. destruct Hin as [-> | Hin]; [contradiction | exact Hin].
Qed.

Lemma existsb_eqb_In (ask_ext : String.string) (xr_extensions : list String.string) :
  existsb (String.eqb ask_ext) xr_extensions = true <-> In ask_ext xr_extensions.
Proof.
  rewrite existsb_exists. split.
  - intros [x [Hin Heq]]. apply String.eqb_eq in Heq. now subst.
  - intros Hin. exists ask_ext. split; [exact Hin | apply String.eqb_refl].
Qed.

Lemma InitXR_use_extensions_filter (ask_extensions xr_extensions : list String.string) :
  NoDup xr_extensions ->
  InitXR_use_extensions ask_extensions xr_extensions =
    filter (fun ask_ext => existsb (String.eqb ask_ext) xr_extensions) ask_extensions.
Proof.
  intros Hnodup. induction ask_extensions as [| a rest IH]; cbn; [reflexivity |].
  destruct (existsb (String.eqb a) xr_extensions) eqn:Hex.
  - apply existsb_eqb_In in Hex.
    rewrite (InitXR_push_matches_present _ _ Hnodup Hex), IH. reflexivity.
  - rewrite InitXR_push_matches_absent, IH; [reflexivity |].
    intros Hin. apply existsb_eqb_In in Hin. congruence.
Qed.

Lemma filter_length_all {A : Type} (f : A -> bool) (l : list A) :
  length (filter f l) = length l <-> forall x, In x l -> f x = true.
Proof.
  induction l as [| x rest IH]; cbn.
  - split; [intros _ y [] | reflexivity].
  - pose proof (filter_length_le f rest) as Hle.
    destruct (f x) eqn:Hfx; cbn.
    + split.
      * intros Hlen y [<- | Hin]; [exact Hfx |]. apply IH; [lia | exact Hin].
      * intros Hall. f_equal. apply IH. intros y Hin. apply Hall. now right.
    + split; [lia |]. intros Hall. specialize (Hall x (or_introl eq_refl)). congruence.
Qed.

(** X12: when the runtime enumerates no extension name twice, the
    extensions [InitXR] enables are the asked names that the runtime
    enumerated, in the order they are asked for, and the fatal error for a
    missing extension is raised exactly when some asked name was not
    enumerated. *)
Theorem InitXR_extensions_checked (ask_extensions xr_extensions : list String.string) :
  NoDup xr_extensions ->
  InitXR_use_extensions ask_extensions xr_extensions =
    filter (fun ask_ext => existsb (String.eqb ask_ext) xr_extensions) ask_extensions
  /\ (InitXR_extension_missing ask_extensions xr_extensions = false <->
      forall ask_ext, In ask_ext ask_extensions -> In ask_ext xr_extensions).
Proof.
  intros Hnodup. split; [apply InitXR_use_extensions_filter; exact Hnodup |].
  unfold InitXR_extension_missing.
  rewrite negb_false_iff, Nat.eqb_eq, (InitXR_use_extensions_filter _ _ Hnodup).
  rewrite filter_length_all. split.
  - intros Hall a Hin. apply existsb_eqb_In. apply Hall. exact Hin.
  - intros Hall a Hin. apply existsb_eqb_In. apply Hall. exact Hin.
Qed.

Lemma InitXR_extensions_checked_witness :
  InitXR_use_extensions
    [XrNames.XR_EXT_DEBUG_UTILS_EXTENSION_NAME; XrNames.XR_KHR_VULKAN_ENABLE_EXTENSION_NAME]
    [XrNames.XR_KHR_VULKAN_ENABLE_EXTENSION_NAME;
     XrNames.XR_KHR_COMPOSITION_LAYER_DEPTH_EXTENSION_NAME] =
    filter (fun ask_ext =>
              existsb (String.eqb ask_ext)
                [XrNames.XR_KHR_VULKAN_ENABLE_EXTENSION_NAME;
                 XrNames.XR_KHR_COMPOSITION_LAYER_DEPTH_EXTENSION_NAME])
           [XrNames.XR_EXT_DEBUG_UTILS_EXTENSION_NAME;
            XrNames.XR_KHR_VULKAN_ENABLE_EXTENSION_NAME]
  /\ (InitXR_extension_missing
        [XrNames.XR_EXT_DEBUG_UTILS_EXTENSION_NAME;
         XrNames.XR_KHR_VULKAN_ENABLE_EXTENSION_NAME]
        [XrNames.XR_KHR_VULKAN_ENABLE_EXTENSION_NAME;
         XrNames.XR_KHR_COMPOSITION_LAYER_DEPTH_EXTENSION_NAME] = false <->
      forall ask_ext,
        In ask_ext [XrNames.XR_EXT_DEBUG_UTILS_EXTENSION_NAME;
                    XrNames.XR_KHR_VULKAN_ENABLE_EXTENSION_NAME] ->
        In ask_ext [XrNames.XR_KHR_VULKAN_ENABLE_EXTENSION_NAME;
                    XrNames.XR_KHR_COMPOSITION_LAYER_DEPTH_EXTENSION_NAME]).
Proof.
  apply (InitXR_extensions_checked
           [XrNames.XR_EXT_DEBUG_UTILS_EXTENSION_NAME;
            XrNames.XR_KHR_VULKAN_ENABLE_EXTENSION_NAME]
           [XrNames.XR_KHR_VULKAN_ENABLE_EXTENSION_NAME;
            XrNames.XR_KHR_COMPOSITION_LAYER_DEPTH_EXTENSION_NAME]).
  repeat constructor; cbn; intuition discriminate.
Defined.

(** Without that assumption the count can hide a missing extension: a name
    enumerated twice makes up for one that is not enumerated. *)
Example InitXR_duplicate_hides_missing :
  InitXR_extension_missing
    [XrNames.XR_EXT_DEBUG_UTILS_EXTENSION_NAME; XrNames.XR_KHR_VULKAN_ENABLE_EXTENSION_NAME]
    [XrNames.XR_EXT_DEBUG_UTILS_EXTENSION_NAME; XrNames.XR_EXT_DEBUG_UTILS_EXTENSION_NAME] =
    false.
Proof. reflexivity. Qed.

(** * [deallocateData] on a range that matches no allocation *)







(** The pass over the free list against a default [foundRange] that an
    entry borders: the range is dropped, not pushed. *)
Example deallocateData_unmatched_border :
  deallocateData 1 (mkRange 0 0) (mkRange 100 8) [mkRange 0 64] [mkRange 0 30; mkRange 64 36] =
    Returns ([mkRange 0 64], [mkRange 0 30; mkRange 64 36]).
Proof. reflexivity. Qed.

(** * When the call of [std::sort] is defined *)

Lemma Vec_In_pointer {A : Type} (v : list A) (x : A) :
  In x v -> exists p, In p (Vec.pointers v) /\ Vec.get v p = Some x.
Proof.
  intros Hin.
  assert (Hsome : In (Some x) (map (Vec.get v) (Vec.pointers v))).
  { rewrite Vec_map_get_pointers. apply in_map. exact Hin. }
  apply in_map_iff in Hsome. destruct Hsome as [p [Hget Hp]].
  exists p. split; assumption.
Qed.

(** On ranges whose starts are [uint32_t] values, the comparator of the
    source meets the requirement of [std::sort] only when all the allocated
    ranges start at the same offset. *)
Lemma comparator_valid_only_same_start (allocatedList : allocation_allocatedlist_t) :
  (forall r, In r allocatedList -> 0 <= start r < U32.modulus) ->
  comparator_valid allocatedList ->
  forall r1 r2, In r1 allocatedList -> In r2 allocatedList -> start r1 = start r2.
Proof.
  intros Hrange [Hirr [Htrans _]] r1 r2 H1 H2.
  destruct (Z.eq_dec (start r1) (start r2)) as [Heq | Hne]; [exact Heq | exfalso].
  destruct (Vec_In_pointer _ _ H1) as [p1 [Hp1 Hg1]].
  destruct (Vec_In_pointer _ _ H2) as [p2 [Hp2 Hg2]].
  assert (H12 : sort_comparator_ptr allocatedList p1 p2 = true).
  { unfold sort_comparator_ptr. rewrite Hg1, Hg2.
    unfold sort_comparator, U32.to_bool. apply negb_true_iff, Z.eqb_neq.
    intros H0.
    pose proof (proj1 (U32_sub_zero_iff (start r1) (start r2)
                         (Hrange _ H1) (Hrange _ H2)) H0). congruence. }
  assert (H21 : sort_comparator_ptr allocatedList p2 p1 = true).
  { unfold sort_comparator_ptr. rewrite Hg1, Hg2.
    unfold sort_comparator, U32.to_bool. apply negb_true_iff, Z.eqb_neq.
    intros H0.
    pose proof (proj1 (U32_sub_zero_iff (start r2) (start r1)
                         (Hrange _ H2) (Hrange _ H1)) H0). congruence. }
  pose proof (Htrans p1 p2 p1 Hp1 Hp2 Hp1 H12 H21) as H11.
  rewrite (Hirr p1 Hp1) in H11. discriminate.
Qed.

(** The two-range engine does not meet it: the call of [std::sort] on it is
    one of which the library promises nothing. *)
Example two_range_engine_comparator_invalid :
  ~ comparator_valid (vertexAllocatedList two_range_engine).
Proof.
  intros Hvalid.
  assert (H : start (mkRange 20 5) = start (mkRange 0 10)).
  { apply (comparator_valid_only_same_start (vertexAllocatedList two_range_engine));
      [| exact Hvalid | cbn; auto | cbn; auto].
    intros r [<- | [<- | []]]; vm_compute; split; congruence. }
  discriminate H.
Qed.
